(** * luxcap: shade-aware routing

    A shallow embedding of [sun_calculator.py], [shade_router.py] and the
    routing parameters of [config.py], with the properties of the design
    document stated and proved over it.

    Conventions.
    - A Python [float] is a binary64 value: Rocq's primitive [float], whose
      operations are the IEEE 754 ones.  Comparisons, [min], [max] and true
      division are written as Python evaluates them (a comparison with NaN is
      false, division by zero raises).
    - A Python exception is a value of [exn]; code that can raise returns a
      [result].  Methods that log, read the module-level [ROUTING_PARAMS] or
      update the edge attributes of [self.graph] run in the
      state-and-exception monad [M].
    - The third-party libraries ([math], [numpy], [shapely], [networkx]) and
      the parts of [datetime] that read the clock or parse text are
      interfaces: classes of operations, each of which may raise.  What a
      theorem needs of a library is a hypothesis of that theorem, stated in
      the library's own terms. *)

From Stdlib Require Import ZArith Floats Lia Ascii Sorting.Sorted Sorting.Permutation.
From stdpp Require Import gmap strings list.

Set Warnings "-inexact-float".
#[local] Open Scope Z_scope.

(** * Python runtime: exceptions and results *)

Module Py.

(** [ValueError] carries the site that raised it. *)
Inductive value_error :=
| HourOutOfRange      (* datetime.replace: hour must be in 0..23 *)
| TimeDataMismatch    (* strptime: time data does not match format *)
| UnconvertedData     (* strptime: unconverted data remains *)
| DayOutOfRange       (* strptime: day is out of range for month *)
| MathDomain          (* math: math domain error *)
| NoStartOrEnd        (* Could not find start or end point in street network *)
| UnpackMismatch      (* tuple unpacking of the wrong arity *)
| OtherValueError.

(** The exceptions the modelled code raises or lets through. *)
Inductive exn :=
| ValueError (why : value_error)
| KeyError (key : string)
| IndexError
| ZeroDivisionError
| AttributeError (attr : string)
| NetworkXNoPath
| NodeNotFound
| LibraryError (tag : string).

Inductive result (A : Type) :=
| Ok (a : A)
| Raise (e : exn).
Arguments Ok {A} a.
Arguments Raise {A} e.

#[global] Instance result_bind : MBind result :=
  fun A B k r => match r with Ok a => k a | Raise e => Raise e end.
#[global] Instance result_ret : MRet result := fun A a => Ok a.

(** [try: r except Exception as e: h e] *)
Definition rcatch {A} (r : result A) (h : exn -> result A) : result A :=
  match r with
  | Ok a => Ok a
  | Raise e => h e
  end.


(** [d[k]] on a dict with string keys. *)
Definition getitem {V} (d : gmap string V) (k : string) : result V :=
  match d !! k with
  | Some v => Ok v
  | None => Raise (KeyError k)
  end.

(** [t[i]] on a tuple or list. *)
Definition index {A} (t : list A) (i : nat) : result A :=
  match t !! i with
  | Some v => Ok v
  | None => Raise IndexError
  end.

(** [a, b = t] *)
Definition unpack2 {A} (t : list A) : result (A * A) :=
  match t with
  | [a; b] => Ok (a, b)
  | _ => Raise (ValueError UnpackMismatch)
  end.

(** [l[:k]]: a negative bound counts from the end. *)
Definition slice_to {A} (l : list A) (k : Z) : list A :=
  if k <? 0 then take (Z.to_nat (Z.of_nat (length l) + k)) l
  else take (Z.to_nat k) l.

End Py.
Export Py.

(** * Python floats *)

Module PyFloat.

Definition of_int (z : Z) : float :=
  if z <? 0 then PrimFloat.opp (PrimFloat.of_uint63 (Uint63.of_Z (- z)))
  else PrimFloat.of_uint63 (Uint63.of_Z z).

(** [x / y]: true division raises on a zero divisor of either sign. *)
Definition truediv (x y : float) : result float :=
  if PrimFloat.eqb y 0 then Raise ZeroDivisionError else Ok (PrimFloat.div x y).

(** [min(a, b)] keeps [a] unless [b < a]; [max(a, b)] keeps [a] unless
    [b > a]. *)
Definition min2 (a b : float) : float := if PrimFloat.ltb b a then b else a.
Definition max2 (a b : float) : float := if PrimFloat.ltb a b then b else a.

(** [math.radians] and [math.degrees] multiply by a constant that C computes
    in binary64 from [Py_MATH_PI]. *)
Definition Py_MATH_PI : float := 0x1.921fb54442d18p+1.
Definition degToRad : float := Eval vm_compute in PrimFloat.div Py_MATH_PI 180.
Definition radToDeg : float := Eval vm_compute in PrimFloat.div 180 Py_MATH_PI.
Definition radians (x : float) : float := PrimFloat.mul x degToRad.
Definition degrees (x : float) : float := PrimFloat.mul x radToDeg.

(** [0.0 <= x <= 1.0] *)
Definition in_unit (x : float) : Prop :=
  PrimFloat.leb 0 x = true /\ PrimFloat.leb x 1 = true.

(** [x] is NaN or [0 <= x]: no area is below zero. *)
Definition nonneg_or_nan (x : float) : Prop :=
  PrimFloat.is_nan x = true \/ PrimFloat.leb 0 x = true.

(** The order of binary64 values.  A value that is not NaN has a rank in
    [Z * Z * Z], ordered lexicographically; [SFcompare] compares ranks. *)
Definition rank (f : spec_float) : Z * Z * Z :=
  match f with
  | S754_nan => (0, 0, 0)
  | S754_zero _ => (0, 0, 0)
  | S754_infinity true => (-2, 0, 0)
  | S754_infinity false => (2, 0, 0)
  | S754_finite true m e => (-1, - e, Zneg m)
  | S754_finite false m e => (1, e, Zpos m)
  end.

Definition lex_compare (a b : Z * Z * Z) : comparison :=
  match a.1.1 ?= b.1.1 with
  | Eq => match a.1.2 ?= b.1.2 with
          | Eq => a.2 ?= b.2
          | c => c
          end
  | c => c
  end.

Definition lex_lt (a b : Z * Z * Z) : Prop :=
  a.1.1 < b.1.1 \/
  (a.1.1 = b.1.1 /\ (a.1.2 < b.1.2 \/ (a.1.2 = b.1.2 /\ a.2 < b.2))).

Definition sf_nan (f : spec_float) : bool :=
  match f with S754_nan => true | _ => false end.

(** The sign test behind [nonneg_or_nan]. *)
Definition sf_nn (f : spec_float) : bool :=
  match f with
  | S754_nan | S754_zero _ => true
  | S754_infinity s | S754_finite s _ _ => negb s
  end.

Definition sf_zero (f : spec_float) : bool :=
  match f with S754_zero _ => true | _ => false end.


(** [x] is NaN, and the rank of [x], read on its specification. *)
Definition fnan (x : float) : bool := sf_nan (Prim2SF x).
Definition frank (x : float) : Z * Z * Z := rank (Prim2SF x).

End PyFloat.

(** * [datetime]: dates, times and the fields the code reads *)

Module Datetime.

Record date := Date { year : Z; month : Z; day : Z }.
Record time := Time { hour : Z; minute : Z; second : Z; microsecond : Z }.
Record datetime := Datetime { dt_date : date; dt_time : time }.

Definition is_leap (y : Z) : bool :=
  (y mod 4 =? 0) && (negb (y mod 100 =? 0) || (y mod 400 =? 0)).

Definition days_in_month (y m : Z) : Z :=
  if m =? 2 then (if is_leap y then 29 else 28)
  else if (m =? 4) || (m =? 6) || (m =? 9) || (m =? 11) then 30
  else 31.

Definition days_before_month (y m : Z) : Z :=
  nth (Z.to_nat (m - 1)) [0; 31; 59; 90; 120; 151; 181; 212; 243; 273; 304; 334] 0
  + (if (2 <? m) && is_leap y then 1 else 0).

(** What the constructors of [date] and [time] accept. *)
Definition date_wf (d : date) : Prop :=
  1 <= year d <= 9999 /\ 1 <= month d <= 12 /\
  1 <= day d <= days_in_month (year d) (month d).

Definition time_wf (t : time) : Prop :=
  0 <= hour t <= 23 /\ 0 <= minute t <= 59 /\ 0 <= second t <= 59 /\
  0 <= microsecond t <= 999999.

(** [datetime.combine(d, t)] *)
Definition combine (d : date) (t : time) : datetime := Datetime d t.

(** [dt.replace(hour=h)]: the new value is built by the constructor, which
    checks the field. *)
Definition replace_hour (dt : datetime) (h : Z) : result datetime :=
  if (0 <=? h) && (h <=? 23)
  then Ok (Datetime (dt_date dt)
             (Time h (minute (dt_time dt)) (second (dt_time dt))
                (microsecond (dt_time dt))))
  else Raise (ValueError HourOutOfRange).

(** [dt.timetuple().tm_yday] *)
Definition tm_yday (dt : datetime) : Z :=
  days_before_month (year (dt_date dt)) (month (dt_date dt)) + day (dt_date dt).

(** [date.today()], [datetime.strptime(s, "%Y-%m-%d").date()] and
    [datetime.strptime(s, "%H:%M").time()]. *)
Class Clock := {
  today : date;
  strptime_date : string -> result date;
  strptime_time : string -> result time;
}.

End Datetime.
Export Datetime.

(** * The numeric libraries *)

(** [math]: each function raises [ValueError] outside its domain. *)
Class Libm := {
  m_sin : float -> result float;
  m_cos : float -> result float;
  m_tan : float -> result float;
  m_asin : float -> result float;
  m_acos : float -> result float;
}.

(** [numpy] on scalars: no function raises; [np_power x y] is [x ** y]. *)
Class Numpy := {
  np_radians : float -> float;
  np_sin : float -> float;
  np_cos : float -> float;
  np_arcsin : float -> float;
  np_sqrt : float -> float;
  np_power : float -> float -> float;
  np_mean : list float -> float;
}.

(** * [shapely]

    [Geom] is a geometry object (a [Point], a [LineString] or a [Polygon]);
    [Coord] is a coordinate tuple as [coords] yields it, used as a dictionary
    key by the graph, and [coord_tuple] gives its components.  [translate] is
    the method call [g.translate(dx, dy)]. *)
Class Shapely := {
  Geom : Type;
  Coord : Type;
  Coord_eq_dec :: EqDecision Coord;
  coord_tuple : Coord -> list float;
  empty_polygon : Geom;
  is_valid : Geom -> bool;
  is_empty : Geom -> bool;
  coords : Geom -> result (list Coord);
  area : Geom -> float;
  buffer : Geom -> float -> result Geom;
  intersects : Geom -> Geom -> result bool;
  intersection : Geom -> Geom -> result Geom;
  translate : Geom -> float -> float -> result Geom;
  unary_union : list Geom -> result Geom;
}.

(** * [networkx]: the data of an undirected [Graph] *)

Module Nx.
Section Graph.
Context `{Shapely}.

(** The attribute dictionary of an edge: [length], [geometry] and
    [original_idx] are set when the edge is added, [shade_score] and
    [combined_weight] by the shade pass of a query. *)
Record EdgeData := {
  ed_length : float;
  ed_geometry : Geom;
  ed_original_idx : Z;
  ed_shade_score : option float;
  ed_combined_weight : option float;
}.

(** Nodes and edges in insertion order. *)
Record Graph := {
  g_nodes : list Coord;
  g_edges : list (Coord * Coord * EdgeData);
}.

Definition empty_graph : Graph := {| g_nodes := []; g_edges := [] |}.

(** [G.add_node(n, pos=n)] *)
Definition add_node (n : Coord) (G : Graph) : Graph :=
  if decide (n ∈ g_nodes G) then G
  else {| g_nodes := g_nodes G ++ [n]; g_edges := g_edges G |}.

(** The edge between [a] and [b] is the edge between [u] and [v]. *)
Definition same_edge (u v a b : Coord) : bool :=
  bool_decide ((a = u /\ b = v) \/ (a = v /\ b = u)).

Definition has_edge (G : Graph) (u v : Coord) : bool :=
  existsb (fun '(a, b, _) => same_edge u v a b) (g_edges G).

(** [datadict.update(length=.., geometry=.., original_idx=..)] *)
Definition update_attrs (len : float) (geom : Geom) (idx : Z) (d : EdgeData) : EdgeData :=
  {| ed_length := len; ed_geometry := geom; ed_original_idx := idx;
     ed_shade_score := ed_shade_score d;
     ed_combined_weight := ed_combined_weight d |}.

(** [G.add_edge(u, v, length=.., geometry=.., original_idx=..)]: a second
    edge between the same two nodes updates the attributes of the first. *)
Definition add_edge (u v : Coord) (len : float) (geom : Geom) (idx : Z) (G : Graph) : Graph :=
  let G' := add_node v (add_node u G) in
  if has_edge G' u v
  then {| g_nodes := g_nodes G';
          g_edges := map (fun '(a, b, d) =>
                            if same_edge u v a b then (a, b, update_attrs len geom idx d)
                            else (a, b, d)) (g_edges G') |}
  else {| g_nodes := g_nodes G';
          g_edges := g_edges G' ++
                     [(u, v, {| ed_length := len; ed_geometry := geom;
                                ed_original_idx := idx; ed_shade_score := None;
                                ed_combined_weight := None |})] |}.

Definition find_edge (G : Graph) (u v : Coord) : option EdgeData :=
  (fun '(_, _, d) => d) <$> find (fun '(a, b, _) => same_edge u v a b) (g_edges G).

(** [G[u][v]] *)
Definition get_edge (G : Graph) (u v : Coord) : result EdgeData :=
  match find_edge G u v with
  | Some d => Ok d
  | None => Raise (KeyError "node")
  end.

Definition adjacent (G : Graph) (u v : Coord) : Prop :=
  has_edge G u v = true.

(** A path of the graph from one node to another. *)
Inductive has_path (G : Graph) : Coord -> Coord -> Prop :=
| path_here u : u ∈ g_nodes G -> has_path G u u
| path_step u v w : adjacent G u v -> has_path G v w -> has_path G u w.

(** [p] walks along edges of the graph. *)
Fixpoint is_walk (G : Graph) (p : list Coord) : Prop :=
  match p with
  | u :: (v :: _) as q => adjacent G u v /\ is_walk G q
  | _ => True
  end.

End Graph.
End Nx.
Export Nx.

(** [nx.shortest_path(G, source, target, weight=attr)] *)
Class Networkx `{Shapely} := {
  shortest_path : Graph -> Coord -> Coord -> string -> result (list Coord);
}.

(** * The state of a run: the graph, the routing parameters, the log *)

Module Runtime.
Section Runtime.
Context `{Shapely}.

Inductive level := INFO | WARNING | ERROR.

(** One constructor for each message the two modules log, with the values
    it formats. *)
Inductive msg :=
| SunPositionError (e : exn)
| ShadeProjectionError (e : exn)
| StreetShadeError (e : exn)
| CreatingGraph
| CreatedGraph (nodes edges : nat)
| CreatingGraphError (e : exn)
| PreProcessing
| PreProcessed (buildings trees : nat)
| PreProcessingError (e : exn)
| FindingShadiestRoute (start_point end_point : list float)
| SunPositionIs (elevation azimuth : float)
| FoundRoute (distance average_shade : float)
| ShadiestRouteError (e : exn)
| NoNearbyNodes (point : list float)
| NearestNodeError (e : exn)
| CalculatingShadeScores
| FinishedShadeScores
| EdgeShadeScoresError (e : exn)
| FindingOptimalRoute (start_node end_node : Coord)
| FallingBackToLength
| DistanceExceedsMaximum (distance_km max_distance_km : float)
| OptimalRouteError (e : exn)
| HaversineError (e : exn)
| FindingAlternatives (num_alternatives : Z)
| FoundAlternatives (n : nat)
| AlternativesError (e : exn).

Record World := {
  graph : Graph;
  ROUTING_PARAMS : gmap string float;
  log : list (level * msg);
}.

Definition M (A : Type) : Type := World -> result A * World.

#[global] Instance M_ret : MRet M := fun A a w => (Ok a, w).
#[global] Instance M_bind : MBind M := fun A B k m w =>
  match m w with
  | (Ok a, w') => k a w'
  | (Raise e, w') => (Raise e, w')
  end.

Definition raise {A} (e : exn) : M A := fun w => (Raise e, w).

Definition lift {A} (r : result A) : M A := fun w => (r, w).

(** [logger.info], [logger.warning], [logger.error] *)
Definition logger (l : level) (m : msg) : M unit := fun w =>
  (Ok tt, {| graph := graph w; ROUTING_PARAMS := ROUTING_PARAMS w;
             log := log w ++ [(l, m)] |}).

(** [try: body except Exception as e: handler e] *)
Definition try_except {A} (body : M A) (handler : exn -> M A) : M A := fun w =>
  match body w with
  | (Ok a, w') => (Ok a, w')
  | (Raise e, w') => handler e w'
  end.

(** [try: body finally: fin] *)
Definition try_finally {A} (body : M A) (fin : M unit) : M A := fun w =>
  match body w with
  | (r, w') =>
      match fin w' with
      | (Ok _, w'') => (r, w'')
      | (Raise e, w'') => (Raise e, w'')
      end
  end.

Definition get_graph : M Graph := fun w => (Ok (graph w), w).

Definition set_graph (G : Graph) : M unit := fun w =>
  (Ok tt, {| graph := G; ROUTING_PARAMS := ROUTING_PARAMS w; log := log w |}).

(** [ROUTING_PARAMS[k]] and [ROUTING_PARAMS[k] = v] *)
Definition get_param (k : string) : M float := fun w =>
  (getitem (ROUTING_PARAMS w) k, w).

Definition set_param (k : string) (v : float) : M unit := fun w =>
  (Ok tt, {| graph := graph w; ROUTING_PARAMS := <[k := v]> (ROUTING_PARAMS w);
             log := log w |}).

(** A [for] loop that threads an accumulator. *)
Fixpoint foldM {A S} (f : S -> A -> M S) (l : list A) (s : S) : M S :=
  match l with
  | [] => mret s
  | a :: l' => s' ← f s a; foldM f l' s'
  end.

End Runtime.
End Runtime.
Export Runtime.

(** * [sun_calculator.py] *)

Module sun_calculator.
Section SunCalculator.
Context `{Libm} `{Shapely}.

Record SunCalculator := {
  latitude : float;
  longitude : float;
  latitude_rad : float;
  timezone_offset : Z;
}.

Definition init (latitude longitude : float) : SunCalculator :=
  {| latitude := latitude; longitude := longitude;
     latitude_rad := PyFloat.radians latitude;
     timezone_offset := -5 |}.

Definition _local_to_utc (self : SunCalculator) (local_date : date) (local_time : time)
  : result datetime :=
  let local_datetime := combine local_date local_time in
  replace_hour local_datetime (hour (dt_time local_datetime) - timezone_offset self).

Definition _calculate_declination (day_of_year : Z) : result float :=
  s ← m_sin (PyFloat.radians
               (PrimFloat.div (PyFloat.of_int (360 * (284 + day_of_year))) 365));
  mret (PrimFloat.mul 23.45 s).

Definition _calculate_hour_angle (utc_time : datetime) : float :=
  let hour := PrimFloat.add (PyFloat.of_int (hour (dt_time utc_time)))
                (PrimFloat.div (PyFloat.of_int (minute (dt_time utc_time))) 60) in
  PrimFloat.mul 15 (PrimFloat.sub hour 12).

Definition _calculate_elevation (self : SunCalculator) (declination hour_angle : float)
  : result float :=
  let declination_rad := PyFloat.radians declination in
  let hour_angle_rad := PyFloat.radians hour_angle in
  sl ← m_sin (latitude_rad self);
  sd ← m_sin declination_rad;
  cl ← m_cos (latitude_rad self);
  cd ← m_cos declination_rad;
  ch ← m_cos hour_angle_rad;
  let sin_elevation :=
    PrimFloat.add (PrimFloat.mul sl sd) (PrimFloat.mul (PrimFloat.mul cl cd) ch) in
  a ← m_asin (PyFloat.max2 (-1) (PyFloat.min2 1 sin_elevation));
  mret (PyFloat.degrees a).

Definition _calculate_azimuth (self : SunCalculator) (declination hour_angle elevation : float)
  : result float :=
  if PrimFloat.leb elevation 0 then mret 0%float
  else
    let declination_rad := PyFloat.radians declination in
    let hour_angle_rad := PyFloat.radians hour_angle in
    let elevation_rad := PyFloat.radians elevation in
    sd ← m_sin declination_rad;
    cl ← m_cos (latitude_rad self);
    cd ← m_cos declination_rad;
    sl ← m_sin (latitude_rad self);
    ch ← m_cos hour_angle_rad;
    ce ← m_cos elevation_rad;
    cos_azimuth ← PyFloat.truediv
      (PrimFloat.sub (PrimFloat.mul sd cl) (PrimFloat.mul (PrimFloat.mul cd sl) ch)) ce;
    let cos_azimuth := PyFloat.max2 (-1) (PyFloat.min2 1 cos_azimuth) in
    a ← m_acos cos_azimuth;
    let azimuth := PyFloat.degrees a in
    mret (if PrimFloat.ltb 0 hour_angle then PrimFloat.sub 360 azimuth else azimuth).

(** The sun position is a dictionary with four keys. *)
Definition sun_position_dict (elevation azimuth declination hour_angle : float)
  : gmap string float :=
  <["elevation" := elevation]> (<["azimuth" := azimuth]>
    (<["declination" := declination]> (<["hour_angle" := hour_angle]> ∅))).

(** The body of the [try] of [calculate_sun_position]. *)
Definition sun_position_of (self : SunCalculator) (date : date) (time_of_day : time)
  : result (gmap string float) :=
  utc_time ← _local_to_utc self date time_of_day;
  let day_of_year := tm_yday utc_time in
  declination ← _calculate_declination day_of_year;
  let hour_angle := _calculate_hour_angle utc_time in
  elevation ← _calculate_elevation self declination hour_angle;
  azimuth ← _calculate_azimuth self declination hour_angle elevation;
  mret (sun_position_dict elevation azimuth declination hour_angle).

Definition calculate_sun_position (self : SunCalculator) (date : date) (time_of_day : time)
  : M (gmap string float) :=
  try_except
    (lift (sun_position_of self date time_of_day))
    (fun e => logger ERROR (SunPositionError e);; raise e).

Definition calculate_shade_projection (self : SunCalculator)
    (building_geometry : Geom) (building_height : float)
    (sun_position : gmap string float) : M Geom :=
  try_except
    (lift (elevation ← getitem sun_position "elevation";
           azimuth ← getitem sun_position "azimuth";
           if PrimFloat.leb elevation 0 then mret empty_polygon
           else
             t ← m_tan (PyFloat.radians elevation);
             shadow_length ← PyFloat.truediv building_height t;
             let azimuth_rad := PyFloat.radians azimuth in
             s ← m_sin azimuth_rad;
             let dx := PrimFloat.mul shadow_length s in
             c ← m_cos azimuth_rad;
             let dy := PrimFloat.mul shadow_length c in
             shadow ← translate building_geometry dx dy;
             complete_shadow ← unary_union [building_geometry; shadow];
             mret complete_shadow))
    (fun e => logger ERROR (ShadeProjectionError e);; mret empty_polygon).

(** The tail that the building loop and the tree loop share: project the
    shadow of a footprint and add the part of it inside the street buffer. *)
Definition add_shadow (self : SunCalculator) (street_buffer : Geom)
    (sun_position : gmap string float) (footprint : Geom) (height : float)
    (total_shade_area : float) : M float :=
  shadow ← calculate_shade_projection self footprint height sun_position;
  hit ← lift (intersects shadow street_buffer);
  if hit : bool then
    inter ← lift (intersection shadow street_buffer);
    mret (PrimFloat.add total_shade_area (area inter))
  else mret total_shade_area.

Definition calculate_street_shade (self : SunCalculator) (street_segment : Geom)
    (buildings : list (Geom * float)) (trees : list (Geom * float))
    (sun_position : gmap string float) : M float :=
  try_except
    (elevation ← lift (getitem sun_position "elevation");
     if PrimFloat.leb elevation 0 then mret 1%float
     else
       street_buffer ← lift (buffer street_segment 10);
       let total_area := area street_buffer in
       total ← foldM (fun total_shade_area '(building_geom, building_height) =>
                        hit ← lift (intersects building_geom street_buffer);
                        if hit : bool then
                          add_shadow self street_buffer sun_position
                            building_geom building_height total_shade_area
                        else mret total_shade_area)
                buildings 0%float;
       total ← foldM (fun total_shade_area '(tree_geom, tree_diameter) =>
                        hit ← lift (intersects tree_geom street_buffer);
                        if hit : bool then
                          let tree_height := PrimFloat.mul tree_diameter 20 in
                          crown ← lift (buffer tree_geom (PrimFloat.div tree_diameter 2));
                          add_shadow self street_buffer sun_position
                            crown tree_height total_shade_area
                        else mret total_shade_area)
                trees total;
       ratio ← lift (PyFloat.truediv total total_area);
       mret (PyFloat.min2 1 ratio))
    (fun e => logger ERROR (StreetShadeError e);; mret 0%float).

End SunCalculator.
End sun_calculator.
Export sun_calculator.

(** * [config.py]: the routing parameters at import *)

Module config.

Definition ROUTING_PARAMS : gmap string float :=
  <["max_distance_km" := 50.0%float]> (<["shade_threshold" := 0.3%float]>
    (<["time_weight" := 0.4%float]> (<["shade_weight" := 0.6%float]> ∅))).

End config.

(** * [list.sort(key=..., reverse=True)]

    The sort is stable and compares keys with [<] only.  When no key is NaN,
    and when every key is, every such sort returns the same list: the one
    built here by insertion, each element going in front of the sorted rest
    and moving back past the elements whose key is strictly greater. *)

Module PySort.
Section Sort.
Context {A : Type} (key : A -> float).

Fixpoint insert_desc (x : A) (l : list A) : list A :=
  match l with
  | [] => [x]
  | y :: l' =>
      if PrimFloat.ltb (key x) (key y) then y :: insert_desc x l'
      else x :: y :: l'
  end.

Definition sort_reverse (l : list A) : list A := foldr insert_desc [] l.

End Sort.
End PySort.

(** * [shade_router.py] *)

Module shade_router.
Section ShadeRouter.
Context `{Libm} `{Numpy} `{Clock} `{Shapely} `{!Networkx}.

(** A row of the street network: its index label, its geometry and its
    [length_m], which is read only when the frame has that column. *)
Record StreetRow := {
  row_idx : Z;
  row_geometry : Geom;
  row_length_m : float;
}.

(** The street network: a frame of rows.  Every row of a frame has the
    columns of the frame, so the frame has a [length_m] column or no row has
    the attribute. *)
Record StreetNetwork := {
  has_length_m : bool;
  street_rows : list StreetRow;
}.

(** [row.get('length_m', default)] *)
Definition get_length_m (frame : StreetNetwork) (row : StreetRow) (default : float) : float :=
  if has_length_m frame then row_length_m row else default.

Record BuildingRow := { building_geometry : Geom; building_height : float }.
Record TreeRow := { tree_geometry : Geom; tree_diameter : float }.

(** The attributes of a router that no method changes after construction;
    [self.graph], whose edge attributes every query rewrites, is in the
    [World]. *)
Record ShadeRouter := {
  street_network : StreetNetwork;
  buildings : list BuildingRow;
  trees : list TreeRow;
  sun_calculator : SunCalculator;
  building_list : list (Geom * float);
  tree_list : list (Geom * float);
}.

(** One entry of a route's [edges]. *)
Record EdgeInfo := {
  ei_start : Coord;
  ei_end : Coord;
  ei_distance_m : float;
  ei_shade_score : float;
  ei_geometry : Geom;
}.

(** The dictionary [_find_optimal_route] returns. *)
Record RouteInfo := {
  path : list Coord;
  edges : list EdgeInfo;
  total_distance : float;
  total_shade_score : float;
  num_segments : nat;
}.

(** The same dictionary after the caller's [update]; [weight_combination] is
    set on alternatives only. *)
Record Route := {
  route_info : RouteInfo;
  start_point : list float;
  end_point : list float;
  route_date : date;
  route_time_of_day : time;
  sun_position : gmap string float;
  total_distance_km : float;
  average_shade_score : float;
  weight_combination : option (float * float);
}.

(** The body of the loop over the rows of the street network. *)
Definition add_street_row (street_network : StreetNetwork) (G : Graph) (row : StreetRow)
  : result Graph :=
  if is_valid (row_geometry row) && negb (is_empty (row_geometry row)) then
    coords ← coords (row_geometry row);
    if decide (2 <= length coords)%nat then
      match head coords, last coords with
      | Some start_point, Some end_point =>
          let G := add_node start_point G in
          let G := add_node end_point G in
          let length := get_length_m street_network row 100 in
          mret (add_edge start_point end_point length (row_geometry row) (row_idx row) G)
      | _, _ => Raise IndexError
      end
    else mret G
  else mret G.

(** The loop over [street_network.iterrows()]. *)
Fixpoint add_street_rows (street_network : StreetNetwork) (G : Graph)
    (rows : list StreetRow) : result Graph :=
  match rows with
  | [] => mret G
  | row :: rows' =>
      G' ← add_street_row street_network G row;
      add_street_rows street_network G' rows'
  end.

Definition _create_routing_graph (street_network : StreetNetwork) : M Graph :=
  try_except
    (logger INFO CreatingGraph;;
     G ← lift (add_street_rows street_network empty_graph (street_rows street_network));
     logger INFO (CreatedGraph (length (g_nodes G)) (length (g_edges G)));;
     mret G)
    (fun e => logger ERROR (CreatingGraphError e);; raise e).

Definition _preprocess_shade_data (buildings : list BuildingRow) (trees : list TreeRow)
  : M (list (Geom * float) * list (Geom * float)) :=
  try_except
    (logger INFO PreProcessing;;
     let building_list :=
       (fun row => (building_geometry row, building_height row)) <$>
         filter (fun row => is_valid (building_geometry row) = true) buildings in
     let tree_list :=
       (fun row => (tree_geometry row, tree_diameter row)) <$>
         filter (fun row => is_valid (tree_geometry row) = true) trees in
     logger INFO (PreProcessed (length building_list) (length tree_list));;
     mret (building_list, tree_list))
    (fun e => logger ERROR (PreProcessingError e);; raise e).

Definition init (street_network : StreetNetwork) (buildings : list BuildingRow)
    (trees : list TreeRow) (sun_calculator : SunCalculator) : M ShadeRouter :=
  G ← _create_routing_graph street_network;
  set_graph G;;
  '(building_list, tree_list) ← _preprocess_shade_data buildings trees;
  mret {| street_network := street_network; buildings := buildings; trees := trees;
          sun_calculator := sun_calculator;
          building_list := building_list; tree_list := tree_list |}.

Definition earth_radius : float := 6371000.

(** The body of the [try] of [_haversine_distance]. *)
Definition haversine (point1 point2 : list float) : result float :=
  '(lon1, lat1) ← unpack2 point1;
  '(lon2, lat2) ← unpack2 point2;
  let lat1_rad := np_radians lat1 in
  let lat2_rad := np_radians lat2 in
  let delta_lat := np_radians (PrimFloat.sub lat2 lat1) in
  let delta_lon := np_radians (PrimFloat.sub lon2 lon1) in
  let a := PrimFloat.add
             (np_power (np_sin (PrimFloat.div delta_lat 2)) 2)
             (PrimFloat.mul (PrimFloat.mul (np_cos lat1_rad) (np_cos lat2_rad))
                (np_power (np_sin (PrimFloat.div delta_lon 2)) 2)) in
  let c := PrimFloat.mul 2 (np_arcsin (np_sqrt a)) in
  mret (PrimFloat.mul earth_radius c).

Definition _haversine_distance (point1 point2 : list float) : M float :=
  try_except
    (lift (haversine point1 point2))
    (fun e => logger ERROR (HaversineError e);; mret infinity).

(** The distance [_haversine_distance] returns, in meters. *)
Definition distance_m (point1 point2 : list float) : float :=
  match haversine point1 point2 with
  | Ok d => d
  | Raise _ => infinity
  end.

(** The truth value of a coordinate tuple. *)
Definition coord_truthy (n : Coord) : bool :=
  match coord_tuple n with [] => false | _ => true end.

(** The truth value of [None] or a coordinate tuple. *)
Definition node_truthy (n : option Coord) : bool :=
  match n with Some n => coord_truthy n | None => false end.

Definition _find_nearest_node (self : ShadeRouter) (point : list float) : M (option Coord) :=
  try_except
    (lon ← lift (index point 1);
     lat ← lift (index point 0);
     let point_lon_lat := [lon; lat] in
     G ← get_graph;
     '(min_distance, nearest_node) ←
       foldM (fun '(min_distance, nearest_node) node =>
                let node_lon_lat := coord_tuple node in
                distance ← _haversine_distance point_lon_lat node_lon_lat;
                if PrimFloat.ltb distance min_distance
                then mret (distance, Some node)
                else mret (min_distance, nearest_node))
         (g_nodes G) (infinity, None);
     if node_truthy nearest_node && PrimFloat.ltb min_distance 1000
     then mret nearest_node
     else logger WARNING (NoNearbyNodes point);; mret None)
    (fun e => logger ERROR (NearestNodeError e);; mret None).

(** [edge_data[k] = v] on the [i]-th edge of [self.graph]. *)
Definition set_edge_attr (i : nat) (f : EdgeData -> EdgeData) : M unit :=
  G ← get_graph;
  set_graph {| g_nodes := g_nodes G;
               g_edges := alter (fun '(a, b, d) => (a, b, f d)) i (g_edges G) |}.

Definition with_shade_score (s : float) (d : EdgeData) : EdgeData :=
  {| ed_length := ed_length d; ed_geometry := ed_geometry d;
     ed_original_idx := ed_original_idx d;
     ed_shade_score := Some s; ed_combined_weight := ed_combined_weight d |}.

Definition with_combined_weight (c : float) (d : EdgeData) : EdgeData :=
  {| ed_length := ed_length d; ed_geometry := ed_geometry d;
     ed_original_idx := ed_original_idx d;
     ed_shade_score := ed_shade_score d; ed_combined_weight := Some c |}.

(** The body of the loop over [self.graph.edges(data=True)]. *)
Definition score_edge (self : ShadeRouter) (sun_position : gmap string float)
    (i : nat) (edge : Coord * Coord * EdgeData) : M unit :=
  let edge_data := edge.2 in
  let geometry := ed_geometry edge_data in
  shade_score ← calculate_street_shade (sun_calculator self) geometry
                  (building_list self) (tree_list self) sun_position;
  set_edge_attr i (with_shade_score shade_score);;
  shade_weight ← get_param "shade_weight";
  time_weight ← get_param "time_weight";
  let normalized_shade := shade_score in
  let combined_weight :=
    PrimFloat.add (PrimFloat.mul time_weight (ed_length edge_data))
      (PrimFloat.mul (PrimFloat.mul shade_weight (PrimFloat.sub 1 normalized_shade))
         (ed_length edge_data)) in
  set_edge_attr i (with_combined_weight combined_weight).

Definition _calculate_edge_shade_scores (self : ShadeRouter)
    (sun_position : gmap string float) : M unit :=
  try_except
    (logger INFO CalculatingShadeScores;;
     G ← get_graph;
     foldM (fun (_ : unit) '(i, edge) => score_edge self sun_position i edge)
       (zip (seq 0 (length (g_edges G))) (g_edges G)) tt;;
     logger INFO FinishedShadeScores)
    (fun e => logger ERROR (EdgeShadeScoresError e);; raise e).

(** The truth value of an optional float. *)
Definition float_truthy (x : option float) : bool :=
  match x with Some x => negb (PrimFloat.eqb x 0) | None => false end.

(** The loop over [range(len(path) - 1)]. *)
Fixpoint route_metrics (G : Graph) (path : list Coord)
    (acc : float * float * list EdgeInfo) : result (float * float * list EdgeInfo) :=
  match path with
  | start_n :: (end_n :: _) as rest =>
      let '(total_distance, total_shade_score, edges_info) := acc in
      edge_data ← get_edge G start_n end_n;
      let distance := ed_length edge_data in
      let shade_score := default 0%float (ed_shade_score edge_data) in
      route_metrics G rest
        (PrimFloat.add total_distance distance,
         PrimFloat.add total_shade_score shade_score,
         edges_info ++ [{| ei_start := start_n; ei_end := end_n;
                           ei_distance_m := distance; ei_shade_score := shade_score;
                           ei_geometry := ed_geometry edge_data |}])
  | _ => mret acc
  end.

Definition _find_optimal_route (self : ShadeRouter) (start_node end_node : Coord)
    (max_distance_km : option float) : M RouteInfo :=
  try_except
    (logger INFO (FindingOptimalRoute start_node end_node);;
     G ← get_graph;
     path ← try_except
              (lift (shortest_path G start_node end_node "combined_weight"))
              (fun e =>
                 match e with
                 | NetworkXNoPath =>
                     logger WARNING FallingBackToLength;;
                     lift (shortest_path G start_node end_node "length")
                 | _ => raise e
                 end);
     '(total_distance, total_shade_score, edges_info) ←
       lift (route_metrics G path (0%float, 0%float, []));
     (if float_truthy max_distance_km &&
         PrimFloat.ltb (default 0%float max_distance_km) (PrimFloat.div total_distance 1000)
      then logger WARNING (DistanceExceedsMaximum (PrimFloat.div total_distance 1000)
                             (default 0%float max_distance_km))
      else mret tt);;
     mret {| path := path; edges := edges_info; total_distance := total_distance;
             total_shade_score := total_shade_score;
             num_segments := length edges_info |})
    (fun e => logger ERROR (OptimalRouteError e);; raise e).

(** The date and the time of a query: today and noon when not given. *)
Definition parse_date (date : option string) : result Datetime.date :=
  match date with
  | None => mret today
  | Some s => strptime_date s
  end.

Definition parse_time_of_day (time_of_day : option string) : result Datetime.time :=
  match time_of_day with
  | None => mret (Time 12 0 0 0)
  | Some s => strptime_time s
  end.

Definition find_shadiest_route (self : ShadeRouter) (start_point end_point : list float)
    (date : option string) (time_of_day : option string)
    (max_distance_km : option float) : M Route :=
  try_except
    (logger INFO (FindingShadiestRoute start_point end_point);;
     date ← lift (parse_date date);
     time_of_day ← lift (parse_time_of_day time_of_day);
     sun_position ← calculate_sun_position (sun_calculator self) date time_of_day;
     elevation ← lift (getitem sun_position "elevation");
     azimuth ← lift (getitem sun_position "azimuth");
     logger INFO (SunPositionIs elevation azimuth);;
     start_node ← _find_nearest_node self start_point;
     end_node ← _find_nearest_node self end_point;
     match start_node, end_node with
     | Some start_node, Some end_node =>
         _calculate_edge_shade_scores self sun_position;;
         route_info ← _find_optimal_route self start_node end_node max_distance_km;
         let route :=
           {| route_info := route_info;
              start_point := start_point; end_point := end_point;
              route_date := date; route_time_of_day := time_of_day;
              sun_position := sun_position;
              total_distance_km := PrimFloat.div (total_distance route_info) 1000;
              average_shade_score := np_mean (ei_shade_score <$> edges route_info);
              weight_combination := None |} in
         logger INFO (FoundRoute (total_distance route_info) (average_shade_score route));;
         mret route
     | _, _ => raise (ValueError NoStartOrEnd)
     end)
    (fun e => logger ERROR (ShadiestRouteError e);; raise e).

Definition weight_combinations : list (float * float) :=
  [(0.8, 0.2); (0.2, 0.8); (0.5, 0.5)]%float.

(** The body of the loop over the weight combinations. *)
Definition alternative_for (self : ShadeRouter) (start_point end_point : list float)
    (primary_route : Route) (alternatives : list Route) (blend : float * float)
  : M (list Route) :=
  let '(shade_w, time_w) := blend in
  original_shade_weight ← get_param "shade_weight";
  original_time_weight ← get_param "time_weight";
  set_param "shade_weight" shade_w;;
  set_param "time_weight" time_w;;
  try_finally
    (start_node ← _find_nearest_node self start_point;
     end_node ← _find_nearest_node self end_point;
     if node_truthy start_node && node_truthy end_node then
       match start_node, end_node with
       | Some start_node, Some end_node =>
           _calculate_edge_shade_scores self (sun_position primary_route);;
           alt_route ← _find_optimal_route self start_node end_node None;
           mret (alternatives ++
                 [{| route_info := alt_route;
                     start_point := start_point; end_point := end_point;
                     route_date := route_date primary_route;
                     route_time_of_day := route_time_of_day primary_route;
                     sun_position := sun_position primary_route;
                     total_distance_km := PrimFloat.div (total_distance alt_route) 1000;
                     average_shade_score := np_mean (ei_shade_score <$> edges alt_route);
                     weight_combination := Some (shade_w, time_w) |}])
       | _, _ => mret alternatives
       end
     else mret alternatives)
    (set_param "shade_weight" original_shade_weight;;
     set_param "time_weight" original_time_weight).

(** The routes in the order they are generated: the primary route, then one
    for each weight combination tried. *)
Definition generate_alternatives (self : ShadeRouter) (start_point end_point : list float)
    (num_alternatives : Z) (date time_of_day : option string) : M (list Route) :=
  primary_route ← find_shadiest_route self start_point end_point date time_of_day None;
  let alternatives := [primary_route] in
  foldM (alternative_for self start_point end_point primary_route)
    (slice_to weight_combinations (num_alternatives - 1)) alternatives.

Definition get_route_alternatives (self : ShadeRouter) (start_point end_point : list float)
    (num_alternatives : Z) (date time_of_day : option string) : M (list Route) :=
  try_except
    (logger INFO (FindingAlternatives num_alternatives);;
     alternatives ← generate_alternatives self start_point end_point
                      num_alternatives date time_of_day;
     let alternatives := PySort.sort_reverse average_shade_score alternatives in
     logger INFO (FoundAlternatives (length alternatives));;
     mret alternatives)
    (fun e => logger ERROR (AlternativesError e);; raise e).

End ShadeRouter.
End shade_router.
Export shade_router.

(** * The vocabulary of the properties *)

Module Spec.

Section Effects.
Context `{Shapely}.

(** [m] leaves the component [f] of the state as it finds it. *)
Definition preserves {A X} (f : World -> X) (m : M A) : Prop :=
  forall w, f (m w).2 = f w.

(** [m] never raises. *)
Definition total {A} (m : M A) : Prop :=
  forall w, exists a, (m w).1 = Ok a.

(** Whenever [m] returns a value, the value satisfies [P]. *)
Definition returns {A} (P : A -> Prop) (m : M A) : Prop :=
  forall w a, (m w).1 = Ok a -> P a.

(** [m] only appends to the log, and what it appends satisfies [Q]. *)
Definition logs_only {A} (Q : level * msg -> Prop) (m : M A) : Prop :=
  forall w, exists extra, log (m w).2 = log w ++ extra /\ Forall Q extra.

(** [f] does not read the log. *)
Definition is_field {X} (f : World -> X) : Prop :=
  forall w l m, f {| graph := graph w; ROUTING_PARAMS := ROUTING_PARAMS w;
                     log := log w ++ [(l, m)] |} = f w.


(** The nodes of the graph of a state. *)
Definition nodes (w : World) : list Coord := g_nodes (graph w).


(** The log records of the shade pass and of the path search. *)
Definition of_scoring_or_search (r : level * msg) : bool :=
  match r.2 with
  | CalculatingShadeScores | FinishedShadeScores | EdgeShadeScoresError _
  | StreetShadeError _ | ShadeProjectionError _
  | FindingOptimalRoute _ _ | FallingBackToLength | DistanceExceedsMaximum _ _
  | OptimalRouteError _ => true
  | _ => false
  end.

Definition before_search (r : level * msg) : Prop := of_scoring_or_search r = false.


End Effects.

Section Libraries.
Context `{Libm} `{Numpy} `{Clock} `{Shapely} `{!Networkx}.

(** No area is below zero. *)
Definition areas_not_negative : Prop :=
  forall g : Geom, PyFloat.nonneg_or_nan (area g).

(** [networkx] raises [NetworkXNoPath] when no path joins two nodes of the
    graph, whatever the weight. *)
Definition raises_no_path : Prop :=
  forall G s t attr,
    s ∈ g_nodes G -> t ∈ g_nodes G -> ~ has_path G s t ->
    shortest_path G s t attr = Raise NetworkXNoPath.







(** Every node of [G] is more than 1000 meters from the point [(lat, lon)]. *)
Definition far_from_nodes (G : Graph) (point : list float) : Prop :=
  forall lon lat, point !! 1%nat = Some lon -> point !! 0%nat = Some lat ->
    forall n, n ∈ g_nodes G ->
      PrimFloat.ltb 1000 (distance_m [lon; lat] (coord_tuple n)) = true.

(** What the scan of [_find_nearest_node] holds after each node: no node yet
    and an infinite distance, or a node of the graph and its distance. *)
Definition nearest_inv (G : Graph) (p : list float) (s : float * option Coord) : Prop :=
  match s.2 with
  | None => s.1 = infinity
  | Some n => n ∈ g_nodes G /\ s.1 = distance_m p (coord_tuple n)
  end.



End Libraries.

Section Sorting.
Context {A : Type} (key : A -> float).





End Sorting.

End Spec.
Export Spec.

(** * Executable stand-ins for the libraries

    Small instances of the library interfaces, on which the model runs.
    They fix what the interfaces leave open only as far as running an
    example needs; the theorems about the program hold for every instance. *)

Module Ref.

(** ** [math] and [numpy]: low-order series around zero *)

Definition sin_series (x : float) : float :=
  PrimFloat.sub x (PrimFloat.div (PrimFloat.mul x (PrimFloat.mul x x)) 6).

Definition cos_series (x : float) : float :=
  PrimFloat.sub 1 (PrimFloat.div (PrimFloat.mul x x) 2).

Definition asin_series (x : float) : float :=
  PrimFloat.add x (PrimFloat.div (PrimFloat.mul x (PrimFloat.mul x x)) 6).

(** [math] raises on an infinite argument and, for the inverse functions,
    outside [-1, 1]; NaN goes through. *)
Definition on_finite (f : float -> float) (x : float) : result float :=
  if PrimFloat.is_infinity x then Raise (ValueError MathDomain) else Ok (f x).

Definition on_unit_ball (f : float -> float) (x : float) : result float :=
  if PrimFloat.ltb 1 x || PrimFloat.ltb x (-1) then Raise (ValueError MathDomain)
  else Ok (f x).

#[export] Instance libm : Libm := {|
  m_sin := on_finite sin_series;
  m_cos := on_finite cos_series;
  m_tan := on_finite (fun x => PrimFloat.div (sin_series x) (cos_series x));
  m_asin := on_unit_ball asin_series;
  m_acos := on_unit_ball (fun x =>
              PrimFloat.sub (PrimFloat.div PyFloat.Py_MATH_PI 2) (asin_series x));
|}.

(** The length of a list in binary64: the count stops where adding one no
    longer gives a larger finite number. *)
Definition float_len {A} (l : list A) : float :=
  foldr (fun _ n =>
           let n' := PrimFloat.add n 1 in
           if PrimFloat.ltb n n' && PrimFloat.ltb n' infinity then n' else n)
    0%float l.

#[export] Instance numpy : Numpy := {|
  np_radians := PyFloat.radians;
  np_sin := sin_series;
  np_cos := cos_series;
  np_arcsin := asin_series;
  np_sqrt := PrimFloat.sqrt;
  np_power := fun x y => if PrimFloat.eqb y 2 then PrimFloat.mul x x else nan;
  np_mean := fun l => PrimFloat.div (foldr PrimFloat.add 0%float l) (float_len l);
|}.

(** ** [strptime] on ASCII text, for the two formats of the router

    Each directive is the ordered choice that the regular expression of
    [_strptime] makes: [%Y] is four digits, [%m] is [1[0-2]|0[1-9]|[1-9]],
    [%d] is [3[01]|[12]\d|0[1-9]|[1-9]], [%H] is [2[0-3]|[0-1]\d|\d] and [%M]
    is [[0-5]\d|\d]. *)

Definition digit (c : Ascii.ascii) : option Z :=
  let n := Z.of_N (Ascii.N_of_ascii c) in
  if (48 <=? n) && (n <=? 57) then Some (n - 48) else None.

Definition two_digits (lo1 hi1 lo2 hi2 : Z) (s : list Ascii.ascii) : option (Z * list Ascii.ascii) :=
  match s with
  | c1 :: c2 :: rest =>
      match digit c1, digit c2 with
      | Some d1, Some d2 =>
          if (lo1 <=? d1) && (d1 <=? hi1) && (lo2 <=? d2) && (d2 <=? hi2)
          then Some (10 * d1 + d2, rest) else None
      | _, _ => None
      end
  | _ => None
  end.

Definition one_digit (lo hi : Z) (s : list Ascii.ascii) : option (Z * list Ascii.ascii) :=
  match s with
  | c :: rest =>
      match digit c with
      | Some d => if (lo <=? d) && (d <=? hi) then Some (d, rest) else None
      | None => None
      end
  | _ => None
  end.

Definition first_of {A} (alternatives : list (option A)) : option A :=
  foldr (fun a rest => match a with Some _ => a | None => rest end) None alternatives.

Definition directive_Y (s : list Ascii.ascii) : option (Z * list Ascii.ascii) :=
  '(hi, s) ← two_digits 0 9 0 9 s;
  '(lo, s) ← two_digits 0 9 0 9 s;
  Some (100 * hi + lo, s).

Definition directive_m (s : list Ascii.ascii) : option (Z * list Ascii.ascii) :=
  first_of [two_digits 1 1 0 2 s; two_digits 0 0 1 9 s; one_digit 1 9 s].

Definition directive_d (s : list Ascii.ascii) : option (Z * list Ascii.ascii) :=
  first_of [two_digits 3 3 0 1 s; two_digits 1 2 0 9 s; two_digits 0 0 1 9 s;
            one_digit 1 9 s].

Definition directive_H (s : list Ascii.ascii) : option (Z * list Ascii.ascii) :=
  first_of [two_digits 2 2 0 3 s; two_digits 0 1 0 9 s; one_digit 0 9 s].

Definition directive_M (s : list Ascii.ascii) : option (Z * list Ascii.ascii) :=
  first_of [two_digits 0 5 0 9 s; one_digit 0 9 s].

Definition literal (c : Ascii.ascii) (s : list Ascii.ascii) : option (list Ascii.ascii) :=
  match s with
  | c' :: rest => if Ascii.eqb c c' then Some rest else None
  | [] => None
  end.

Definition match_date (s : list Ascii.ascii) : option (Z * Z * Z * list Ascii.ascii) :=
  '(y, s) ← directive_Y s;
  s ← literal "-"%char s;
  '(m, s) ← directive_m s;
  s ← literal "-"%char s;
  '(d, s) ← directive_d s;
  Some (y, m, d, s).

Definition match_time (s : list Ascii.ascii) : option (Z * Z * list Ascii.ascii) :=
  '(h, s) ← directive_H s;
  s ← literal ":"%char s;
  '(m, s) ← directive_M s;
  Some (h, m, s).

Definition ref_strptime_date (s : string) : result date :=
  match match_date (String.list_ascii_of_string s) with
  | None => Raise (ValueError TimeDataMismatch)
  | Some (y, m, d, []) =>
      if (1 <=? y) && (d <=? days_in_month y m) then Ok (Date y m d)
      else Raise (ValueError DayOutOfRange)
  | Some _ => Raise (ValueError UnconvertedData)
  end.

Definition ref_strptime_time (s : string) : result time :=
  match match_time (String.list_ascii_of_string s) with
  | None => Raise (ValueError TimeDataMismatch)
  | Some (h, m, []) => Ok (Time h m 0 0)
  | Some _ => Raise (ValueError UnconvertedData)
  end.

#[export] Instance clock : Clock := {|
  today := Date 2024 6 21;
  strptime_date := ref_strptime_date;
  strptime_time := ref_strptime_time;
|}.

(** ** [shapely] on a grid

    Coordinates are whole numbers; a polygon is the set of unit cells it
    covers, and its area their number.  [translate] raises, as the attribute
    lookup does on a geometry object: the class has no such method. *)

Inductive geom :=
| GPoint (c : Z * Z)
| GLine (cs : list (Z * Z))
| GCells (cells : list (Z * Z))
| GInvalid.

#[export] Instance geom_eq_dec : EqDecision geom.
Proof. solve_decision. Defined.

Definition cells_of (g : geom) : list (Z * Z) :=
  match g with
  | GPoint c => [c]
  | GLine cs => cs
  | GCells cells => cells
  | GInvalid => []
  end.

(** The whole part of a float that is not negative, 0 for any other. *)
Definition whole_part (x : float) : Z :=
  match Prim2SF x with
  | S754_finite false m e => Z.shiftl (Zpos m) e
  | _ => 0
  end.

Definition square_around (r : Z) (c : Z * Z) : list (Z * Z) :=
  let side := (fun z => Z.of_nat z - r) <$> seq 0 (Z.to_nat (2 * r + 1)) in
  x ← side; y ← side; [(c.1 + x, c.2 + y)].

Definition ref_buffer (g : geom) (r : float) : result geom :=
  match g with
  | GInvalid => Raise (LibraryError "GEOSException")
  | _ => Ok (GCells (remove_dups (cells_of g ≫= square_around (whole_part r))))
  end.

Definition ref_intersection (g1 g2 : geom) : result geom :=
  match g1, g2 with
  | GInvalid, _ | _, GInvalid => Raise (LibraryError "GEOSException")
  | _, _ => Ok (GCells (filter (fun c => c ∈ cells_of g2) (remove_dups (cells_of g1))))
  end.

Definition ref_intersects (g1 g2 : geom) : result bool :=
  match ref_intersection g1 g2 with
  | Ok g => Ok (negb (bool_decide (cells_of g = [])))
  | Raise e => Raise e
  end.

Definition ref_coords (g : geom) : result (list (Z * Z)) :=
  match g with
  | GPoint c => Ok [c]
  | GLine cs => Ok cs
  | _ => Raise (LibraryError "NotImplementedError")
  end.

Definition ref_area (g : geom) : float :=
  match g with
  | GCells cells => PyFloat.of_int (Z.of_nat (length cells))
  | _ => 0
  end.

Definition ref_unary_union (gs : list geom) : result geom :=
  if bool_decide (GInvalid ∈ gs) then Raise (LibraryError "GEOSException")
  else Ok (GCells (remove_dups (gs ≫= cells_of))).

#[export] Instance shapely : Shapely := {|
  Geom := geom;
  Coord := Z * Z;
  coord_tuple := fun c => [PyFloat.of_int c.1; PyFloat.of_int c.2];
  empty_polygon := GCells [];
  is_valid := fun g => negb (bool_decide (g = GInvalid));
  is_empty := fun g => bool_decide (cells_of g = []);
  coords := ref_coords;
  area := ref_area;
  buffer := ref_buffer;
  intersects := ref_intersects;
  intersection := ref_intersection;
  translate := fun _ _ _ => Raise (AttributeError "translate");
  unary_union := ref_unary_union;
|}.

(** ** [networkx]: a path found by bounded depth-first search

    The search ignores the weights: it returns some path, and
    [NetworkXNoPath] when it finds none. *)

Section Search.
Context (G : Graph) (target : Z * Z).

Fixpoint search (fuel : nat) (visited : list (Z * Z)) (u : Z * Z) : option (list (Z * Z)) :=
  if decide (u = target) then Some [u]
  else
    match fuel with
    | O => None
    | S fuel =>
        foldr (fun v rest =>
                 match search fuel (u :: visited) v with
                 | Some p => Some (u :: p)
                 | None => rest
                 end)
          None
          (filter (fun v => has_edge G u v = true /\ v ∉ visited) (g_nodes G))
    end.

End Search.

Definition ref_shortest_path (G : Graph) (source target : Z * Z) (weight : string)
  : result (list (Z * Z)) :=
  if decide (source ∈ g_nodes G /\ target ∈ g_nodes G) then
    match search G target (length (g_nodes G)) [] source with
    | Some p => Ok p
    | None => Raise NetworkXNoPath
    end
  else Raise NodeNotFound.

#[export] Instance networkx : Networkx := {| shortest_path := ref_shortest_path |}.

End Ref.


(** * A small city to run the model on

    Three streets: two that meet at a corner and one apart from them.  The
    coordinates are whole degrees, longitude first. *)

Module Example.
Import Ref.

Definition calculator : SunCalculator := sun_calculator.init 40.7128 (-74.0060).

Definition second_street : StreetRow :=
  {| row_idx := 1; row_geometry := GLine [(1, 0); (1, 1)]; row_length_m := 0 |}.

Definition streets : StreetNetwork :=
  {| has_length_m := false;
     street_rows :=
       [ {| row_idx := 0; row_geometry := GLine [(0, 0); (1, 0)]; row_length_m := 0 |};
         second_street;
         {| row_idx := 2; row_geometry := GLine [(5, 5); (6, 5)]; row_length_m := 0 |} ] |}.

Definition houses : list BuildingRow :=
  [ {| building_geometry := GCells [(0, 1); (0, 2)]; building_height := 10 |} ].

Definition street_trees : list TreeRow :=
  [ {| tree_geometry := GPoint (1, 1); tree_diameter := 2 |} ].

Definition nothing_yet : World :=
  {| graph := empty_graph; ROUTING_PARAMS := config.ROUTING_PARAMS; log := [] |}.

(** The router and the state that [ShadeRouter(...)] leaves. *)
Definition built : result ShadeRouter * World :=
  Eval vm_compute in shade_router.init streets houses street_trees calculator nothing_yet.

Definition router : ShadeRouter :=
  match built.1 with
  | Ok r => r
  | Raise _ =>
      {| street_network := streets; buildings := houses; trees := street_trees;
         sun_calculator := calculator; building_list := []; tree_list := [] |}
  end.

Definition city : World := built.2.

(** Query points, latitude first: two next to nodes of the corner, one far
    from every node. *)
Definition near_origin : list float := [0.001; 0.001]%float.
Definition far_away : list float := [40; 40]%float.

Definition unit_square : Geom := GCells [(0, 0)].

Definition first_street : Geom := GLine [(0, 0); (1, 0)].

Definition morning_sun : gmap string float :=
  sun_position_dict 45 180 23 (-30).

Definition night_sun : gmap string float :=
  sun_position_dict (-5) 0 23 150.

(** The corner of the city: no edge leaves it. *)
Definition corner : list Coord := [(0, 0); (1, 0); (1, 1)].

(** The sun over the city at half past ten on the June solstice. *)
Definition june_morning_sun : gmap string float :=
  Eval vm_compute in
    match sun_position_of calculator (Date 2024 6 21) (Time 10 30 0 0) with
    | Ok sun => sun
    | Raise _ => ∅
    end.



(** An alternatives query whose two points are next to the same node, run. *)
Definition same_node_run : result (list Route) * World :=
  Eval vm_compute in
    get_route_alternatives router near_origin near_origin 3
      (Some "2024-06-21") (Some "10:30") city.

Definition same_node_routes : list Route :=
  match same_node_run.1 with Ok routes => routes | Raise _ => [] end.

End Example.

(** * Properties *)

(** ** Binary64 comparisons and signs *)

Module PyFloatFacts.
Import PyFloat.

Lemma lex_compare_spec a b :
  match lex_compare a b with
  | Lt => lex_lt a b
  | Eq => a = b
  | Gt => lex_lt b a
  end.
Proof.
  destruct a as [[a1 a2] a3], b as [[b1 b2] b3]. unfold lex_compare, lex_lt. simpl.
  destruct (Z.compare_spec a1 b1); [|lia..].
  destruct (Z.compare_spec a2 b2); [|lia..].
  destruct (Z.compare_spec a3 b3); [|lia..].
  congruence.
Qed.

Lemma lex_lt_irrefl a : ~ lex_lt a a.
Proof. unfold lex_lt. lia. Qed.

Lemma lex_lt_asym a b : lex_lt a b -> ~ lex_lt b a.
Proof. unfold lex_lt. lia. Qed.


Lemma SFcompare_rank x y :
  sf_nan x = false -> sf_nan y = false ->
  SFcompare x y = Some (lex_compare (rank x) (rank y)).
Proof.
  destruct x as [[]|[]| |[] mx ex], y as [[]|[]| |[] my ey]; simpl; try discriminate; intros _ _;
    try reflexivity.
  unfold lex_compare; simpl.
  rewrite Z.compare_opp, (Z.compare_antisym ey ex).
  destruct (ey ?= ex); reflexivity.
Qed.

Lemma SFcompare_nan_l x y : sf_nan x = true -> SFcompare x y = None.
Proof. destruct x; try discriminate. reflexivity. Qed.

Lemma SFcompare_nan_r x y : sf_nan y = true -> SFcompare x y = None.
Proof. destruct y; try discriminate. destruct x; reflexivity. Qed.

Lemma compare_cases x y :
  (fnan x = false /\ fnan y = false /\
   SFcompare (Prim2SF x) (Prim2SF y) = Some (lex_compare (frank x) (frank y)))
  \/ ((fnan x = true \/ fnan y = true) /\ SFcompare (Prim2SF x) (Prim2SF y) = None).
Proof.
  unfold fnan, frank.
  destruct (sf_nan (Prim2SF x)) eqn:Hx.
  { right. split; [by left|]. by apply SFcompare_nan_l. }
  destruct (sf_nan (Prim2SF y)) eqn:Hy.
  { right. split; [by right|]. by apply SFcompare_nan_r. }
  left. repeat split. by apply SFcompare_rank.
Qed.

Lemma ltb_rank x y :
  PrimFloat.ltb x y = true <->
  fnan x = false /\ fnan y = false /\ lex_lt (frank x) (frank y).
Proof.
  rewrite FloatAxioms.ltb_spec. unfold SFltb.
  destruct (compare_cases x y) as [(Hx & Hy & ->)|[Hn ->]].
  - pose proof (lex_compare_spec (frank x) (frank y)) as Hc.
    destruct (lex_compare (frank x) (frank y)); split; try done; intros (_ & _ & Hl).
    + rewrite Hc in Hl. by apply lex_lt_irrefl in Hl.
    + by apply lex_lt_asym in Hl.
  - split; [done|]. intros (? & ? & _). destruct Hn; congruence.
Qed.

Lemma leb_rank x y :
  PrimFloat.leb x y = true <->
  fnan x = false /\ fnan y = false /\ ~ lex_lt (frank y) (frank x).
Proof.
  rewrite FloatAxioms.leb_spec. unfold SFleb.
  destruct (compare_cases x y) as [(Hx & Hy & ->)|[Hn ->]].
  - pose proof (lex_compare_spec (frank x) (frank y)) as Hc.
    destruct (lex_compare (frank x) (frank y)); split; try done.
    + intros _. repeat split; try done. rewrite Hc. apply lex_lt_irrefl.
    + intros _. repeat split; try done. by apply lex_lt_asym.
    + intros (_ & _ & Hl). done.
  - split; [done|]. intros (? & ? & _). destruct Hn; congruence.
Qed.

Lemma eqb_rank x y :
  PrimFloat.eqb x y = true <->
  fnan x = false /\ fnan y = false /\ frank x = frank y.
Proof.
  rewrite FloatAxioms.eqb_spec. unfold SFeqb.
  destruct (compare_cases x y) as [(Hx & Hy & ->)|[Hn ->]].
  - pose proof (lex_compare_spec (frank x) (frank y)) as Hc.
    destruct (lex_compare (frank x) (frank y)); split; try done.
    + intros (_ & _ & Hl). rewrite Hl in Hc. by apply lex_lt_irrefl in Hc.
    + intros (_ & _ & Hl). rewrite Hl in Hc. by apply lex_lt_irrefl in Hc.
  - split; [done|]. intros (? & ? & _). destruct Hn; congruence.
Qed.

Lemma is_nan_fnan x : PrimFloat.is_nan x = fnan x.
Proof.
  unfold is_nan. destruct (fnan x) eqn:Hx.
  - destruct (PrimFloat.eqb x x) eqn:He; [|done].
    apply eqb_rank in He. destruct He. congruence.
  - replace (PrimFloat.eqb x x) with true; [done|].
    symmetry. by apply eqb_rank.
Qed.

Lemma ltb_asym x y : PrimFloat.ltb x y = true -> PrimFloat.ltb y x = false.
Proof.
  intros (Hx & Hy & Hl)%ltb_rank.
  destruct (PrimFloat.ltb y x) eqn:E; [|done].
  apply ltb_rank in E as (_ & _ & Hl'). by apply lex_lt_asym in Hl.
Qed.

Lemma ltb_leb x y : PrimFloat.ltb x y = true -> PrimFloat.leb x y = true.
Proof.
  intros (Hx & Hy & Hl)%ltb_rank. apply leb_rank. repeat split; try done.
  by apply lex_lt_asym.
Qed.




Lemma leb_not_nan x y :
  PrimFloat.leb x y = true -> PrimFloat.is_nan x = false /\ PrimFloat.is_nan y = false.
Proof. rewrite !is_nan_fnan. by intros (Hx & Hy & _)%leb_rank. Qed.

Lemma ltb_not_nan x y :
  PrimFloat.ltb x y = true -> PrimFloat.is_nan x = false /\ PrimFloat.is_nan y = false.
Proof. rewrite !is_nan_fnan. by intros (Hx & Hy & _)%ltb_rank. Qed.

Lemma leb_refl x : PrimFloat.is_nan x = false -> PrimFloat.leb x x = true.
Proof.
  rewrite is_nan_fnan. intros Hx. apply leb_rank. repeat split; try done.
  apply lex_lt_irrefl.
Qed.

(** Signs. *)

Lemma nonneg_or_nan_sf x : nonneg_or_nan x <-> sf_nn (Prim2SF x) = true.
Proof.
  unfold nonneg_or_nan. rewrite is_nan_fnan, FloatAxioms.leb_spec. unfold fnan.
  change (Prim2SF 0) with (S754_zero false).
  destruct (Prim2SF x) as [s|[]| |[] m e]; simpl; intuition congruence.
Qed.

Lemma binary_round_aux_nn m e l : sf_nn (binary_round_aux prec emax false m e l) = true.
Proof.
  unfold binary_round_aux.
  destruct (shr_fexp prec emax m e l) as [mrs e'].
  destruct (shr_fexp prec emax _ e' loc_Exact) as [mrs' e''].
  destruct (shr_m mrs'); [done| |done].
  by destruct (Z.leb e'' _).
Qed.

Lemma binary_round_nn m e : sf_nn (binary_round prec emax false m e) = true.
Proof.
  unfold binary_round. destruct (shl_align _ _ _). apply binary_round_aux_nn.
Qed.

Lemma SFadd_nn x y :
  sf_nn x = true -> sf_nn y = true -> sf_nn (SF64add x y) = true.
Proof.
  destruct x as [[]|[]| |[] mx ex], y as [[]|[]| |[] my ey]; simpl; try done.
  intros _ _. unfold binary_normalize. simpl. apply binary_round_nn.
Qed.

Lemma SFdiv_nn x y :
  sf_nn x = true -> sf_nn y = true -> sf_zero y = false -> sf_nn (SF64div x y) = true.
Proof.
  destruct x as [[]|[]| |[] mx ex], y as [[]|[]| |[] my ey]; simpl; try done.
  intros _ _ _. destruct (SFdiv_core_binary _ _ _ _ _ _) as [[mz ez] lz].
  apply binary_round_aux_nn.
Qed.

Lemma add_nonneg x y :
  nonneg_or_nan x -> nonneg_or_nan y -> nonneg_or_nan (PrimFloat.add x y).
Proof. rewrite !nonneg_or_nan_sf, FloatAxioms.add_spec. apply SFadd_nn. Qed.

Lemma eqb_zero_sf y : PrimFloat.eqb y 0 = sf_zero (Prim2SF y).
Proof.
  rewrite FloatAxioms.eqb_spec. change (Prim2SF 0) with (S754_zero false).
  by destruct (Prim2SF y) as [s|[]| |[] m e].
Qed.

Lemma div_nonneg x y :
  nonneg_or_nan x -> nonneg_or_nan y -> PrimFloat.eqb y 0 = false ->
  nonneg_or_nan (PrimFloat.div x y).
Proof. rewrite !nonneg_or_nan_sf, eqb_zero_sf, FloatAxioms.div_spec. apply SFdiv_nn. Qed.

Lemma min2_unit r : nonneg_or_nan r -> in_unit (min2 1 r).
Proof.
  intros Hr. unfold min2, in_unit. destruct (PrimFloat.ltb r 1) eqn:Hlt.
  - split; [|by apply ltb_leb].
    destruct Hr as [Hn|Hr]; [|done].
    apply ltb_not_nan in Hlt as [? _]. congruence.
  - by vm_compute.
Qed.

(** Numbers that are not below zero: sums and quotients of them are
    numbers. *)














End PyFloatFacts.

(** ** Effects: what a computation returns, changes and logs *)

Section Frames.
Context `{Shapely}.

Lemma graph_is_field : is_field graph.
Proof. done. Qed.
Lemma params_is_field : is_field ROUTING_PARAMS.
Proof. done. Qed.

Section Preserves.
Context {X : Type} (f : World -> X).

Lemma preserves_ret {A} (a : A) : preserves f (mret a).
Proof. done. Qed.

Lemma preserves_raise {A} e : preserves f (raise e : M A).
Proof. done. Qed.

Lemma preserves_lift {A} (r : result A) : preserves f (lift r).
Proof. done. Qed.

Lemma preserves_get_graph : preserves f get_graph.
Proof. done. Qed.

Lemma preserves_get_param k : preserves f (get_param k).
Proof. done. Qed.

Lemma preserves_logger l m : is_field f -> preserves f (logger l m).
Proof. intros Hf w. apply Hf. Qed.

Lemma preserves_bind {A B} (m : M A) (k : A -> M B) :
  preserves f m -> (forall a, preserves f (k a)) -> preserves f (m ≫= k).
Proof.
  intros Hm Hk w. unfold mbind, M_bind. specialize (Hm w).
  destruct (m w) as [[a|e] w1]; simpl in *; [|done].
  by rewrite Hk.
Qed.

Lemma preserves_try_except {A} (body : M A) (h : exn -> M A) :
  preserves f body -> (forall e, preserves f (h e)) -> preserves f (try_except body h).
Proof.
  intros Hm Hk w. unfold try_except. specialize (Hm w).
  destruct (body w) as [[a|e] w1]; simpl in *; [done|].
  by rewrite Hk.
Qed.

Lemma preserves_foldM {A S} (g : S -> A -> M S) (l : list A) s :
  (forall s a, preserves f (g s a)) -> preserves f (foldM g l s).
Proof.
  intros Hg. revert s. induction l as [|a l IH]; intros s; simpl.
  - apply preserves_ret.
  - apply preserves_bind; [apply Hg|]. intros s'. apply IH.
Qed.

Lemma preserves_if {A} (b : bool) (m1 m2 : M A) :
  preserves f m1 -> preserves f m2 -> preserves f (if b then m1 else m2).
Proof. by destruct b. Qed.

End Preserves.

Lemma returns_ret {A} (P : A -> Prop) a : P a -> returns P (mret a).
Proof. intros Ha w a' [= <-]. done. Qed.

Lemma returns_raise {A} (P : A -> Prop) e : returns P (raise e).
Proof. intros w a' [=]. Qed.

Lemma returns_bind {A B} (P : A -> Prop) (Q : B -> Prop) (m : M A) (k : A -> M B) :
  returns P m -> (forall a, P a -> returns Q (k a)) -> returns Q (m ≫= k).
Proof.
  intros Hm Hk w b. unfold mbind, M_bind. specialize (Hm w).
  destruct (m w) as [[a|e] w1]; simpl in *; [|done].
  intros Hb. eapply Hk; [|done]. by eapply Hm.
Qed.

Lemma returns_lift {A} (P : A -> Prop) (r : result A) :
  (forall a, r = Ok a -> P a) -> returns P (lift r).
Proof. intros Hr w a E. by apply Hr. Qed.

Lemma returns_true {A} (m : M A) : returns (fun _ => True) m.
Proof. done. Qed.

Lemma returns_try_except {A} (P : A -> Prop) (body : M A) (h : exn -> M A) :
  returns P body -> (forall e, returns P (h e)) -> returns P (try_except body h).
Proof.
  intros Hm Hk w a. unfold try_except. specialize (Hm w).
  destruct (body w) as [[a'|e] w1]; simpl in *.
  - intros [= <-]. by apply Hm.
  - apply Hk.
Qed.

Lemma returns_foldM {A S} (I : S -> Prop) (f : S -> A -> M S) (l : list A) s :
  I s -> (forall s a, a ∈ l -> I s -> returns I (f s a)) -> returns I (foldM f l s).
Proof.
  revert s. induction l as [|a l IH]; intros s Hs Hf; simpl.
  - by apply returns_ret.
  - eapply returns_bind; [apply Hf; [left|done]|]. intros s' Hs'. apply IH; [done|].
    intros s'' a' Ha'. apply Hf. by right.
Qed.

Lemma total_ret {A} (a : A) : total (mret a).
Proof. intros w. by exists a. Qed.

Lemma total_logger l m : total (logger l m).
Proof. intros w. by exists tt. Qed.

Lemma total_bind {A B} (m : M A) (k : A -> M B) :
  total m -> (forall a, total (k a)) -> total (m ≫= k).
Proof.
  intros Hm Hk w. unfold mbind, M_bind. destruct (Hm w) as [a Ha].
  destruct (m w) as [[a'|e] w1]; simpl in *; [|done]. apply Hk.
Qed.

Lemma total_try_except {A} (body : M A) (h : exn -> M A) :
  (forall e, total (h e)) -> total (try_except body h).
Proof.
  intros Hk w. unfold try_except.
  destruct (body w) as [[a'|e] w1]; simpl in *; [by eexists|]. apply Hk.
Qed.

Lemma total_foldM {A S} (f : S -> A -> M S) (l : list A) s :
  (forall s a, total (f s a)) -> total (foldM f l s).
Proof.
  intros Hf. revert s. induction l as [|a l IH]; intros s; simpl.
  - apply total_ret.
  - apply total_bind; [apply Hf|]. intros s'. apply IH.
Qed.

Section LogsOnly.
Context (Q : level * msg -> Prop).

Lemma logs_only_pure {A} (m : M A) :
  (forall w, (m w).2 = w) -> logs_only Q m.
Proof. intros Hm w. exists []. rewrite Hm, app_nil_r. done. Qed.

Lemma logs_only_ret {A} (a : A) : logs_only Q (mret a).
Proof. by apply logs_only_pure. Qed.

Lemma logs_only_raise {A} e : logs_only Q (raise e : M A).
Proof. by apply logs_only_pure. Qed.

Lemma logs_only_lift {A} (r : result A) : logs_only Q (lift r).
Proof. by apply logs_only_pure. Qed.

Lemma logs_only_get_graph : logs_only Q get_graph.
Proof. by apply logs_only_pure. Qed.

Lemma logs_only_logger l m : Q (l, m) -> logs_only Q (logger l m).
Proof. intros Hq w. exists [(l, m)]. split; [done|]. by constructor. Qed.

Lemma logs_only_bind {A B} (m : M A) (k : A -> M B) :
  logs_only Q m -> (forall a, logs_only Q (k a)) -> logs_only Q (m ≫= k).
Proof.
  intros Hm Hk w. unfold mbind, M_bind. destruct (Hm w) as (x1 & E1 & F1).
  destruct (m w) as [[a|e] w1]; simpl in *; [|by exists x1].
  destruct (Hk a w1) as (x2 & E2 & F2). exists (x1 ++ x2).
  rewrite E2, E1, app_assoc. split; [done|]. by apply Forall_app.
Qed.

Lemma logs_only_try_except {A} (body : M A) (h : exn -> M A) :
  logs_only Q body -> (forall e, logs_only Q (h e)) -> logs_only Q (try_except body h).
Proof.
  intros Hm Hk w. unfold try_except. destruct (Hm w) as (x1 & E1 & F1).
  destruct (body w) as [[a|e] w1]; simpl in *; [by exists x1|].
  destruct (Hk e w1) as (x2 & E2 & F2). exists (x1 ++ x2).
  rewrite E2, E1, app_assoc. split; [done|]. by apply Forall_app.
Qed.

Lemma logs_only_foldM {A S} (f : S -> A -> M S) (l : list A) s :
  (forall s a, logs_only Q (f s a)) -> logs_only Q (foldM f l s).
Proof.
  intros Hf. revert s. induction l as [|a l IH]; intros s; simpl.
  - apply logs_only_ret.
  - apply logs_only_bind; [apply Hf|]. intros s'. apply IH.
Qed.

End LogsOnly.

(** Outcomes that do not depend on the state. *)

Lemma nodes_is_field : is_field nodes.
Proof. done. Qed.












End Frames.

(** ** The stand-ins keep the contracts of the libraries *)

Module RefFacts.
Import PyFloat PyFloatFacts Ref.

Lemma of_int_nonneg z : 0 <= z -> nonneg_or_nan (of_int z).
Proof.
  intros Hz. unfold of_int. replace (z <? 0) with false by lia.
  apply nonneg_or_nan_sf. rewrite FloatAxioms.of_uint63_spec.
  pose proof (Uint63.to_Z_bounded (Uint63.of_Z z)) as [Hb _].
  destruct (Uint63.to_Z (Uint63.of_Z z)) as [|p|p]; simpl; [done| |lia].
  apply binary_round_nn.
Qed.

Lemma ref_areas_not_negative : areas_not_negative.
Proof.
  intros [c|cs|cells|]; simpl; try (right; by vm_compute).
  apply of_int_nonneg. lia.
Qed.




End RefFacts.

(** ** The sun calculator *)

Section SunCalculatorFacts.
Context `{Libm} `{Shapely}.
Import PyFloat PyFloatFacts.

Lemma local_to_utc_evening lat lon d t :
  19 <= hour t ->
  _local_to_utc (sun_calculator.init lat lon) d t = Raise (ValueError HourOutOfRange).
Proof.
  intros Hh. unfold _local_to_utc, replace_hour, combine. simpl.
  replace (hour t - -5 <=? 23) with false by lia.
  by rewrite andb_false_r.
Qed.

(** C2: for every date and every well-formed local time of day whose hour is
    19 or later, [calculate_sun_position] raises the [ValueError] of
    [datetime.replace] (the hour plus five is 24 or more, and [replace] does
    not roll over to the next day), logs it, and returns no sun position. *)
Theorem evening_query_raises lat lon d t w :
  time_wf t -> 19 <= hour t ->
  calculate_sun_position (sun_calculator.init lat lon) d t w =
    (Raise (ValueError HourOutOfRange),
     {| graph := graph w; ROUTING_PARAMS := ROUTING_PARAMS w;
        log := log w ++ [(ERROR, SunPositionError (ValueError HourOutOfRange))] |}).
Proof.
  intros _ Hh. unfold calculate_sun_position, sun_position_of, try_except, lift.
  rewrite local_to_utc_evening by done. reflexivity.
Qed.

(** The sun position reads two attributes of the calculator: the latitude
    in radians and the offset of the time zone. *)
Lemma sun_position_reads_latitude self1 self2 d t :
  latitude_rad self1 = latitude_rad self2 ->
  timezone_offset self1 = timezone_offset self2 ->
  sun_position_of self1 d t = sun_position_of self2 d t.
Proof.
  intros Hlat Htz.
  unfold sun_position_of, _local_to_utc, _calculate_elevation, _calculate_azimuth.
  by rewrite Hlat, Htz.
Qed.

(** C9: two sun-position calculations that differ only in the longitude of
    the observer give the same outcome: the same elevation and azimuth, or
    the same error.  More generally, two calculators that have the same
    latitude in radians and the same time-zone offset give the same outcome,
    whatever their longitudes are. *)
Theorem longitude_does_not_matter d t w :
  (forall lat lon1 lon2,
     calculate_sun_position (sun_calculator.init lat lon1) d t w =
     calculate_sun_position (sun_calculator.init lat lon2) d t w) /\
  (forall self1 self2,
     latitude_rad self1 = latitude_rad self2 ->
     timezone_offset self1 = timezone_offset self2 ->
     calculate_sun_position self1 d t w = calculate_sun_position self2 d t w).
Proof.
  assert (forall self1 self2,
            latitude_rad self1 = latitude_rad self2 ->
            timezone_offset self1 = timezone_offset self2 ->
            calculate_sun_position self1 d t w = calculate_sun_position self2 d t w) as Hgen.
  { intros self1 self2 Hlat Htz. unfold calculate_sun_position.
    by rewrite (sun_position_reads_latitude self1 self2 d t Hlat Htz). }
  split; [|exact Hgen].
  intros lat lon1 lon2. by apply Hgen.
Qed.

(** C3: when the elevation of the sun is 0 or less, the street-shade scorer
    returns exactly 1.0 and leaves the state as it is, whatever the segment,
    the buildings, the trees and the geometry library are. *)
Theorem night_is_fully_shaded self street_segment buildings trees sun_position elevation w :
  sun_position !! "elevation" = Some elevation ->
  PrimFloat.leb elevation 0 = true ->
  calculate_street_shade self street_segment buildings trees sun_position w = (Ok 1%float, w).
Proof.
  intros He Hle. unfold calculate_street_shade, try_except, mbind, M_bind, lift, getitem.
  rewrite He, Hle. reflexivity.
Qed.

(** When no call raises, the shadow is the union of the footprint and the
    footprint moved by the offset. *)
Lemma shade_projection_union self g h sun e a t s c sh u w :
  sun !! "elevation" = Some e -> sun !! "azimuth" = Some a ->
  PrimFloat.leb e 0 = false ->
  m_tan (radians e) = Ok t -> PrimFloat.eqb t 0 = false ->
  m_sin (radians a) = Ok s -> m_cos (radians a) = Ok c ->
  translate g (PrimFloat.mul (PrimFloat.div h t) s) (PrimFloat.mul (PrimFloat.div h t) c) = Ok sh ->
  unary_union [g; sh] = Ok u ->
  calculate_shade_projection self g h sun w = (Ok u, w).
Proof.
  intros He Ha Hle Ht Ht0 Hs Hc Hsh Hu.
  unfold calculate_shade_projection, try_except, lift, getitem, truediv.
  rewrite He, Ha. simpl. rewrite Hle, Ht. simpl. rewrite Ht0. simpl.
  rewrite Hs. simpl. rewrite Hc. simpl. rewrite Hsh. simpl. rewrite Hu. reflexivity.
Qed.

(** C1, as the code runs: [g.translate(dx, dy)] raises [AttributeError] on
    a geometry object, the handler swallows it, and the projection returns
    the empty polygon for every footprint, height and sun position; it
    changes nothing but the log. *)
Theorem shade_projection_without_translate self g h sun w :
  (forall dx dy, translate g dx dy = Raise (AttributeError "translate")) ->
  exists w', calculate_shade_projection self g h sun w = (Ok empty_polygon, w')
             /\ graph w' = graph w /\ ROUTING_PARAMS w' = ROUTING_PARAMS w.
Proof.
  intros Htr.
  unfold calculate_shade_projection, try_except, lift, getitem, truediv.
  destruct (sun !! "elevation") as [e|]; simpl; [|by eexists].
  destruct (sun !! "azimuth") as [a|]; simpl; [|by eexists].
  destruct (PrimFloat.leb e 0); simpl; [by eexists|].
  destruct (m_tan (radians e)) as [t|]; simpl; [|by eexists].
  destruct (PrimFloat.eqb t 0); simpl; [by eexists|].
  destruct (m_sin (radians a)) as [s|]; simpl; [|by eexists].
  destruct (m_cos (radians a)) as [c|]; simpl; [|by eexists].
  rewrite Htr. simpl. by eexists.
Qed.

Lemma shade_projection_total self g h sun :
  total (calculate_shade_projection self g h sun).
Proof.
  apply total_try_except. intros e. apply total_bind; [apply total_logger|].
  intros _. apply total_ret.
Qed.

Lemma add_shadow_nonneg self street_buffer sun g h total_shade_area :
  areas_not_negative ->
  nonneg_or_nan total_shade_area ->
  returns nonneg_or_nan (add_shadow self street_buffer sun g h total_shade_area).
Proof.
  intros Harea Ht. unfold add_shadow.
  eapply returns_bind; [apply returns_true|]. intros shadow _.
  eapply returns_bind; [apply returns_true|]. intros [] _.
  - eapply returns_bind; [apply returns_true|]. intros inter _.
    apply returns_ret. by apply add_nonneg.
  - by apply returns_ret.
Qed.

Lemma street_shade_returns_in_unit self seg buildings trees sun :
  areas_not_negative ->
  returns in_unit (calculate_street_shade self seg buildings trees sun).
Proof.
  intros Harea. unfold calculate_street_shade.
  apply returns_try_except.
  2:{ intros e. eapply returns_bind; [apply returns_true|]. intros _ _.
      apply returns_ret. by vm_compute. }
  eapply returns_bind; [apply returns_true|]. intros e _.
  destruct (PrimFloat.leb e 0).
  { apply returns_ret. by vm_compute. }
  eapply returns_bind; [apply returns_true|]. intros street_buffer _.
  eapply returns_bind with (P := nonneg_or_nan).
  { apply returns_foldM; [right; by vm_compute|].
    intros total_shade_area [g h] _ Ht.
    eapply returns_bind; [apply returns_true|]. intros [] _.
    - by apply add_shadow_nonneg.
    - by apply returns_ret. }
  intros total_shade_area Ht.
  eapply returns_bind with (P := nonneg_or_nan).
  { apply returns_foldM; [done|].
    intros total' [g d] _ Ht'.
    eapply returns_bind; [apply returns_true|]. intros [] _.
    - eapply returns_bind; [apply returns_true|]. intros crown _.
      by apply add_shadow_nonneg.
    - by apply returns_ret. }
  intros total' Ht'.
  eapply returns_bind with (P := nonneg_or_nan).
  { apply returns_lift. unfold truediv. intros r.
    destruct (PrimFloat.eqb (area street_buffer) 0) eqn:E; [done|].
    intros [= <-]. by apply div_nonneg. }
  intros r Hr. apply returns_ret. by apply min2_unit.
Qed.

Lemma street_shade_total self seg buildings trees sun :
  total (calculate_street_shade self seg buildings trees sun).
Proof.
  apply total_try_except. intros e. apply total_bind; [apply total_logger|].
  intros _. apply total_ret.
Qed.

(** C4: for every segment, every list of buildings and of trees and every
    sun position, the street-shade scorer returns, and returns a value in
    [0.0, 1.0], also when calls on the geometries raise, provided no area
    that the geometry library reports is below zero. *)
Theorem shade_score_in_unit self seg buildings trees sun w :
  areas_not_negative ->
  exists v, (calculate_street_shade self seg buildings trees sun w).1 = Ok v /\ in_unit v.
Proof.
  intros Harea.
  destruct (street_shade_total self seg buildings trees sun w) as [v Hv].
  exists v. split; [done|].
  by eapply street_shade_returns_in_unit.
Qed.

End SunCalculatorFacts.

Section SunCalculatorWitnesses.
Import Ref Example.

Lemma evening_query_raises_witness :
  calculate_sun_position (sun_calculator.init 40.7128 (-74.0060))
    (Date 2024 6 21) (Time 19 30 0 0) city =
    (Raise (ValueError HourOutOfRange),
     {| graph := graph city; ROUTING_PARAMS := ROUTING_PARAMS city;
        log := log city ++ [(ERROR, SunPositionError (ValueError HourOutOfRange))] |}).
Proof.
  apply evening_query_raises; [unfold time_wf; simpl; lia | simpl; lia].
Defined.

Lemma night_is_fully_shaded_witness :
  calculate_street_shade calculator first_street
    (building_list router) (tree_list router) night_sun city = (Ok 1%float, city).
Proof.
  apply (night_is_fully_shaded calculator _ _ _ night_sun (-5)%float city);
    reflexivity.
Defined.

Lemma shade_projection_without_translate_witness :
  exists w', calculate_shade_projection calculator unit_square 10 morning_sun city =
               (Ok empty_polygon, w')
             /\ graph w' = graph city /\ ROUTING_PARAMS w' = ROUTING_PARAMS city.
Proof.
  apply (shade_projection_without_translate calculator unit_square 10 morning_sun city).
  intros dx dy. reflexivity.
Defined.

Lemma shade_score_in_unit_witness :
  exists v, (calculate_street_shade calculator first_street
               (building_list router) (tree_list router) morning_sun city).1 = Ok v
            /\ PyFloat.in_unit v.
Proof.
  apply (shade_score_in_unit calculator first_street
           (building_list router) (tree_list router) morning_sun city).
  exact RefFacts.ref_areas_not_negative.
Defined.

(** At the failing input of C1 the projection logs the [AttributeError] and
    returns the empty polygon. *)
Example shade_projection_of_unit_square :
  calculate_shade_projection calculator unit_square 10 morning_sun city =
    (Ok (GCells []),
     {| graph := graph city; ROUTING_PARAMS := ROUTING_PARAMS city;
        log := log city ++ [(ERROR, ShadeProjectionError (AttributeError "translate"))] |}).
Proof. reflexivity. Qed.

End SunCalculatorWitnesses.

(** ** The router: what its methods leave unchanged *)

Ltac frame_step :=
  first
    [ apply preserves_ret | apply preserves_raise | apply preserves_lift
    | apply preserves_get_graph | apply preserves_get_param
    | apply preserves_logger; done
    | apply preserves_bind; [|intros ?]
    | apply preserves_try_except; [|intros ?]
    | apply preserves_foldM; intros ? ?
    | match goal with
      | |- preserves _ (match ?x with _ => _ end) => destruct x
      | |- preserves _ (if ?b then _ else _) => destruct b
      | |- preserves _ (let '(_, _) := ?x in _) => destruct x
      | |- preserves _ ((let '(_, _) := ?x in _) _) => destruct x
      end ].

Section SunFrames.
Context `{Libm} `{Shapely}.

Lemma sun_position_preserves {X} (f : World -> X) self d t :
  is_field f -> preserves f (calculate_sun_position self d t).
Proof. intros Hf. unfold calculate_sun_position. repeat frame_step. Qed.

Lemma shade_projection_preserves {X} (f : World -> X) self g h sun :
  is_field f -> preserves f (calculate_shade_projection self g h sun).
Proof. intros Hf. unfold calculate_shade_projection. repeat frame_step. Qed.

Lemma add_shadow_preserves {X} (f : World -> X) self sb sun g h total :
  is_field f -> preserves f (add_shadow self sb sun g h total).
Proof.
  intros Hf. unfold add_shadow.
  apply preserves_bind; [by apply shade_projection_preserves|]. intros ?.
  repeat frame_step.
Qed.

Lemma street_shade_preserves {X} (f : World -> X) self seg bs ts sun :
  is_field f -> preserves f (calculate_street_shade self seg bs ts sun).
Proof.
  intros Hf. unfold calculate_street_shade.
  repeat (frame_step || apply add_shadow_preserves; try done).
Qed.

End SunFrames.

Section RouterFrames.
Context `{Libm} `{Numpy} `{Clock} `{Shapely} `{!Networkx}.

Lemma haversine_preserves {X} (f : World -> X) p q :
  is_field f -> preserves f (_haversine_distance p q).
Proof. intros Hf. unfold _haversine_distance. repeat frame_step. Qed.

Lemma nearest_node_preserves {X} (f : World -> X) self p :
  is_field f -> preserves f (_find_nearest_node self p).
Proof.
  intros Hf. unfold _find_nearest_node.
  repeat (frame_step || apply haversine_preserves; try done).
Qed.

Lemma set_edge_attr_preserves_params i g :
  preserves ROUTING_PARAMS (set_edge_attr i g).
Proof. done. Qed.

Lemma edge_shade_scores_preserves_params self sun :
  preserves ROUTING_PARAMS (_calculate_edge_shade_scores self sun).
Proof.
  unfold _calculate_edge_shade_scores, score_edge.
  repeat (frame_step || apply set_edge_attr_preserves_params
          || apply street_shade_preserves; try done).
Qed.

Lemma optimal_route_preserves {X} (f : World -> X) self s t m :
  is_field f -> preserves f (_find_optimal_route self s t m).
Proof. intros Hf. unfold _find_optimal_route. repeat frame_step. Qed.

Lemma shadiest_route_preserves_params self p q d t m :
  preserves ROUTING_PARAMS (find_shadiest_route self p q d t m).
Proof.
  unfold find_shadiest_route.
  repeat (frame_step || apply sun_position_preserves || apply nearest_node_preserves
          || apply edge_shade_scores_preserves_params
          || apply optimal_route_preserves; try done).
Qed.

Lemma restore_params (P : gmap string float) os ot sw tw :
  P !! "shade_weight" = Some os -> P !! "time_weight" = Some ot ->
  <["time_weight" := ot]> (<["shade_weight" := os]>
    (<["time_weight" := tw]> (<["shade_weight" := sw]> P))) = P.
Proof.
  intros Hs Ht. apply map_eq. intros k.
  destruct (decide (k = "time_weight")) as [->|Hk1]; [by simplify_map_eq|].
  destruct (decide (k = "shade_weight")) as [->|Hk2]; by simplify_map_eq.
Qed.

Lemma bind_get_param {A} k (f : float -> M A) w :
  (get_param k ≫= f) w =
  match ROUTING_PARAMS w !! k with
  | Some v => f v w
  | None => (Raise (KeyError k), w)
  end.
Proof. unfold mbind, M_bind, get_param, getitem. by destruct (_ !! _). Qed.

Lemma bind_set_param {A} k v (f : unit -> M A) w :
  (set_param k v ≫= f) w =
  f tt {| graph := graph w; ROUTING_PARAMS := <[k := v]> (ROUTING_PARAMS w);
          log := log w |}.
Proof. done. Qed.

Lemma try_finally_params {A} (body : M A) fin w :
  ROUTING_PARAMS (try_finally body fin w).2 = ROUTING_PARAMS (fin (body w).2).2.
Proof.
  unfold try_finally. destruct (body w) as [r w1]. simpl.
  by destruct (fin w1) as [[]].
Qed.

Lemma alternative_for_preserves_params self p q primary alts blend :
  preserves ROUTING_PARAMS (alternative_for self p q primary alts blend).
Proof.
  intros w. unfold alternative_for. destruct blend as [shade_w time_w].
  rewrite bind_get_param.
  destruct (ROUTING_PARAMS w !! "shade_weight") as [os|] eqn:Hs; [|done].
  rewrite bind_get_param.
  destruct (ROUTING_PARAMS w !! "time_weight") as [ot|] eqn:Ht; [|done].
  rewrite !bind_set_param, try_finally_params, bind_set_param. simpl.
  match goal with |- context [ROUTING_PARAMS (?b ?w1).2] =>
    assert (preserves ROUTING_PARAMS b) as Hb
  end.
  { repeat (frame_step || apply nearest_node_preserves
            || apply edge_shade_scores_preserves_params
            || apply optimal_route_preserves; try done). }
  rewrite Hb. by apply restore_params.
Qed.

(** C8: after every call of [get_route_alternatives], whether it returns or
    raises, [ROUTING_PARAMS] is the dictionary it was before the call: each
    alternative saves the two weights, overrides them and restores them in
    its [finally]. *)
Theorem alternatives_restore_routing_params self p q n d t w :
  ROUTING_PARAMS (get_route_alternatives self p q n d t w).2 = ROUTING_PARAMS w.
Proof.
  revert w. change (preserves ROUTING_PARAMS (get_route_alternatives self p q n d t)).
  unfold get_route_alternatives, generate_alternatives.
  repeat (frame_step || apply shadiest_route_preserves_params
          || apply alternative_for_preserves_params; try done).
Qed.

End RouterFrames.

(** ** The nearest node and the path search *)

Section Nearest.
Context `{Libm} `{Numpy} `{Clock} `{Shapely} `{!Networkx}.
Import PyFloat PyFloatFacts.

Lemma bind_ok_inv {A B} (m : M A) (k : A -> M B) w b w' :
  (m ≫= k) w = (Ok b, w') -> exists a w1, m w = (Ok a, w1) /\ k a w1 = (Ok b, w').
Proof.
  unfold mbind, M_bind. destruct (m w) as [[a|e] w1]; [|done]. by exists a, w1.
Qed.

Lemma lift_ok_inv {A} (r : result A) w a w' :
  lift r w = (Ok a, w') -> r = Ok a /\ w' = w.
Proof. by intros [= -> ->]. Qed.

Lemma haversine_value p q w :
  (_haversine_distance p q w).1 = Ok (distance_m p q).
Proof.
  unfold _haversine_distance, distance_m, try_except, lift.
  by destruct (haversine p q).
Qed.

Lemma nearest_fold_inv G p :
  returns (nearest_inv G p)
    (foldM (fun '(min_distance, nearest_node) node =>
              let node_lon_lat := coord_tuple node in
              distance ← _haversine_distance p node_lon_lat;
              if PrimFloat.ltb distance min_distance
              then mret (distance, Some node)
              else mret (min_distance, nearest_node))
       (g_nodes G) (infinity, None)).
Proof.
  apply returns_foldM; [done|].
  intros [md nn] n Hn Hinv. simpl.
  eapply returns_bind with (P := fun d => d = distance_m p (coord_tuple n)).
  { intros w d Hd. rewrite haversine_value in Hd. by injection Hd. }
  intros d ->. destruct (PrimFloat.ltb _ md); by apply returns_ret.
Qed.

Lemma nearest_node_total self p : total (_find_nearest_node self p).
Proof.
  apply total_try_except. intros e. apply total_bind; [apply total_logger|].
  intros _. apply total_ret.
Qed.

Lemma nearest_node_far self point w :
  far_from_nodes (graph w) point -> (_find_nearest_node self point w).1 = Ok None.
Proof.
  intros Hfar. unfold _find_nearest_node, try_except.
  match goal with |- context [match ?b w with _ => _ end] =>
    destruct (b w) as [[r|e] w1] eqn:E end; [|done].
  simpl. f_equal.
  apply bind_ok_inv in E as (lon & w2 & [Hlon ->]%lift_ok_inv & E).
  apply bind_ok_inv in E as (lat & w2 & [Hlat ->]%lift_ok_inv & E).
  apply bind_ok_inv in E as (G & w2 & [= <- <-] & E).
  apply bind_ok_inv in E as ([md nn] & w2 & Hfold & E).
  pose proof (nearest_fold_inv (graph w) [lon; lat] w (md, nn) (f_equal fst Hfold)) as Hinv.
  unfold index in Hlon, Hlat.
  destruct (point !! 1%nat) as [lon'|] eqn:E1; [|done].
  destruct (point !! 0%nat) as [lat'|] eqn:E0; [|done].
  injection Hlon as ->. injection Hlat as ->.
  assert (PrimFloat.ltb md 1000 = false) as Hmd.
  { unfold nearest_inv in Hinv. simpl in Hinv. destruct nn as [n|].
    - destruct Hinv as [Hn ->]. apply ltb_asym. by apply Hfar.
    - by subst md. }
  rewrite Hmd, andb_false_r in E.
  apply bind_ok_inv in E as ([] & w3 & _ & E). by injection E.
Qed.

Lemma nearest_node_accepts self point n w :
  (_find_nearest_node self point w).1 = Ok (Some n) ->
  exists lon lat, point !! 1%nat = Some lon /\ point !! 0%nat = Some lat /\
    n ∈ g_nodes (graph w) /\
    PrimFloat.ltb (distance_m [lon; lat] (coord_tuple n)) 1000 = true.
Proof.
  unfold _find_nearest_node, try_except.
  match goal with |- context [match ?b w with _ => _ end] =>
    destruct (b w) as [[r|e] w1] eqn:E end; [|done].
  simpl. intros [= ->].
  apply bind_ok_inv in E as (lon & w2 & [Hlon ->]%lift_ok_inv & E).
  apply bind_ok_inv in E as (lat & w2 & [Hlat ->]%lift_ok_inv & E).
  apply bind_ok_inv in E as (G & w2 & [= <- <-] & E).
  apply bind_ok_inv in E as ([md nn] & w2 & Hfold & E).
  pose proof (nearest_fold_inv (graph w) [lon; lat] w (md, nn) (f_equal fst Hfold)) as Hinv.
  unfold index in Hlon, Hlat.
  destruct (point !! 1%nat) as [lon'|] eqn:E1; [|done].
  destruct (point !! 0%nat) as [lat'|] eqn:E0; [|done].
  injection Hlon as ->. injection Hlat as ->.
  exists lon, lat. split; [done|]. split; [done|].
  destruct (node_truthy nn && PrimFloat.ltb md 1000) eqn:Hc.
  - injection E as -> _. apply andb_prop in Hc as [_ Hmd].
    unfold nearest_inv in Hinv. simpl in Hinv. destruct Hinv as [Hn ->]. done.
  - apply bind_ok_inv in E as ([] & w3 & _ & E). by injection E.
Qed.

Lemma nearest_node_logs self p :
  logs_only before_search (_find_nearest_node self p).
Proof.
  unfold _find_nearest_node, _haversine_distance.
  repeat first
    [ apply logs_only_ret | apply logs_only_lift | apply logs_only_get_graph
    | apply logs_only_logger; done
    | apply logs_only_bind; [|intros ?]
    | apply logs_only_try_except; [|intros ?]
    | apply logs_only_foldM; intros ? ?
    | match goal with
      | |- logs_only _ (if ?b then _ else _) => destruct b
      | |- logs_only _ ((let '(_, _) := ?x in _) _) => destruct x
      | |- logs_only _ (let '(_, _) := ?x in _) => destruct x
      end ].
Qed.




End Nearest.

Section Sun.
Context `{Libm} `{Shapely}.

Lemma sun_position_keys self d t sun :
  sun_position_of self d t = Ok sun ->
  exists e a, sun !! "elevation" = Some e /\ sun !! "azimuth" = Some a.
Proof.
  unfold sun_position_of. unfold mbind, result_bind.
  destruct (_local_to_utc self d t) as [utc|]; [|done].
  destruct (_calculate_declination _) as [dec|]; [|done].
  destruct (_calculate_elevation _ _ _) as [el|]; [|done].
  destruct (_calculate_azimuth _ _ _ _) as [az|]; [|done].
  intros [= <-]. exists el, az. done.
Qed.

Lemma sun_position_ok self d t sun w :
  sun_position_of self d t = Ok sun ->
  calculate_sun_position self d t w = (Ok sun, w).
Proof. intros E. unfold calculate_sun_position, try_except, lift. by rewrite E. Qed.

End Sun.

Section Claims.
Context `{Libm} `{Numpy} `{Clock} `{Shapely} `{!Networkx}.

(** C5: when no path of the graph joins the start node and the end node,
    [_find_optimal_route] searches under [combined_weight], logs that it
    falls back, searches under [length], and raises [NetworkXNoPath] to its
    caller, given that the path search raises that error when there is no
    path.  The graph and the routing parameters are as before. *)
Theorem no_path_fails_after_fallback self s t m w :
  raises_no_path ->
  s ∈ g_nodes (graph w) -> t ∈ g_nodes (graph w) -> ~ has_path (graph w) s t ->
  _find_optimal_route self s t m w =
    (Raise NetworkXNoPath,
     {| graph := graph w; ROUTING_PARAMS := ROUTING_PARAMS w;
        log := log w ++ [(INFO, FindingOptimalRoute s t); (WARNING, FallingBackToLength);
                         (ERROR, OptimalRouteError NetworkXNoPath)] |}).
Proof.
  intros Hnx Hs Ht Hno.
  unfold _find_optimal_route, try_except, mbind, M_bind, logger, get_graph, lift. simpl.
  rewrite !Hnx by done. simpl. by rewrite <- !app_assoc.
Qed.

Lemma far_query_run self start_point end_point date time_of_day m w d t sun :
  parse_date date = Ok d -> parse_time_of_day time_of_day = Ok t ->
  sun_position_of (sun_calculator self) d t = Ok sun ->
  far_from_nodes (graph w) start_point -> far_from_nodes (graph w) end_point ->
  exists w' extra,
    find_shadiest_route self start_point end_point date time_of_day m w =
      (Raise (ValueError NoStartOrEnd), w') /\
    graph w' = graph w /\ log w' = log w ++ extra /\ Forall before_search extra.
Proof.
  intros Hd Ht Hsun Hs He.
  destruct (sun_position_keys _ _ _ _ Hsun) as (e & a & Hel & Haz).
  unfold find_shadiest_route, try_except.
  unfold mbind at 1, M_bind at 1. unfold logger at 1.
  unfold mbind at 1, M_bind at 1. unfold lift at 1. rewrite Hd.
  unfold mbind at 1, M_bind at 1. unfold lift at 1. rewrite Ht.
  unfold mbind at 1, M_bind at 1. rewrite (sun_position_ok _ _ _ _ _ Hsun).
  unfold mbind at 1, M_bind at 1. unfold lift at 1, getitem at 1. rewrite Hel.
  unfold mbind at 1, M_bind at 1. unfold lift at 1, getitem at 1. rewrite Haz.
  unfold mbind at 1, M_bind at 1. unfold logger at 1.
  unfold mbind at 1, M_bind at 1.
  set (w1 := {| graph := _; ROUTING_PARAMS := _; log := _ ++ [(INFO, SunPositionIs e a)] |}).
  pose proof (nearest_node_far self start_point w1 Hs) as Hv1.
  pose proof (nearest_node_preserves graph self start_point graph_is_field w1) as Hg1.
  destruct (nearest_node_logs self start_point w1) as (x1 & Hl1 & Hq1).
  destruct (_find_nearest_node self start_point w1) as [r1 w2]. simpl in Hv1, Hg1, Hl1. subst r1.
  unfold mbind at 1, M_bind at 1.
  assert (far_from_nodes (graph w2) end_point) as He2 by by rewrite Hg1.
  pose proof (nearest_node_far self end_point w2 He2) as Hv2.
  pose proof (nearest_node_preserves graph self end_point graph_is_field w2) as Hg2.
  destruct (nearest_node_logs self end_point w2) as (x2 & Hl2 & Hq2).
  destruct (_find_nearest_node self end_point w2) as [r2 w3]. simpl in Hv2, Hg2, Hl2. subst r2.
  simpl. eexists _, _. split; [done|]. simpl. split; [by rewrite Hg2, Hg1|].
  rewrite Hl2, Hl1. subst w1. simpl. rewrite <- !app_assoc. split; [done|].
  repeat (apply Forall_cons; split; [done|]).
  apply Forall_app. split; [done|]. apply Forall_app. split; [done|].
  by repeat constructor.
Qed.

(** C6, amended: for every query whose date and time parse and whose sun
    position is computed, and whose two points are each more than 1000
    meters from every node, the nearest-node lookup returns no node for
    either point and the query raises the [ValueError] of the missing node;
    the graph is unchanged and nothing of the shade pass or the path search
    is logged.  A node that the lookup returns is a node of the graph less
    than 1000 meters from the point. *)
Theorem far_query_fails_before_search self start_point end_point date time_of_day m w d t sun :
  parse_date date = Ok d -> parse_time_of_day time_of_day = Ok t ->
  sun_position_of (sun_calculator self) d t = Ok sun ->
  far_from_nodes (graph w) start_point -> far_from_nodes (graph w) end_point ->
  (_find_nearest_node self start_point w).1 = Ok None /\
  (_find_nearest_node self end_point w).1 = Ok None /\
  (exists w' extra,
     find_shadiest_route self start_point end_point date time_of_day m w =
       (Raise (ValueError NoStartOrEnd), w') /\
     graph w' = graph w /\ log w' = log w ++ extra /\ Forall before_search extra) /\
  (forall p n w0, (_find_nearest_node self p w0).1 = Ok (Some n) ->
     exists lon lat, p !! 1%nat = Some lon /\ p !! 0%nat = Some lat /\
       n ∈ g_nodes (graph w0) /\
       PrimFloat.ltb (distance_m [lon; lat] (coord_tuple n)) 1000 = true).
Proof.
  intros Hd Ht Hsun Hs He.
  split; [by apply nearest_node_far|]. split; [by apply nearest_node_far|].
  split; [by eapply far_query_run|].
  intros p n w0. apply nearest_node_accepts.
Qed.

End Claims.

(** The depth-first search of the stand-in returns paths of the graph. *)

Module RefSearch.
Import Ref.

Lemma search_sound (G : Graph) (t : Z * Z) fuel visited u p :
  t ∈ g_nodes G -> search G t fuel visited u = Some p -> has_path G u t.
Proof.
  intros Ht. revert visited u p. induction fuel as [|fuel IH]; intros visited u p; simpl.
  - destruct (decide (u = t)) as [->|]; [|done]. intros _. by constructor.
  - destruct (decide (u = t)) as [->|]; [intros _; by constructor|].
    generalize (g_nodes G) at 1. intros nodes.
    induction nodes as [|v nodes IHn]; simpl; [done|].
    rewrite filter_cons. destruct (decide _) as [[Hadj Hv]|]; simpl; [|exact IHn].
    destruct (search G t fuel (u :: visited) v) as [q|] eqn:E; [|exact IHn].
    intros _. eapply path_step; [exact Hadj|]. by eapply IH.
Qed.

Lemma ref_raises_no_path : raises_no_path.
Proof.
  intros G s t attr Hs Ht Hno. simpl. unfold ref_shortest_path.
  destruct (decide _) as [_|Hn]; [|by destruct Hn].
  destruct (search _ _ _ _ _) as [p|] eqn:E; [|done].
  destruct Hno. by eapply search_sound.
Qed.



End RefSearch.

Section RouterWitnesses.
Import Ref Example.

Lemma corner_is_closed u v :
  has_path (graph city) u v -> u ∈ corner -> v ∈ corner.
Proof.
  induction 1 as [u _|u v w Hadj _ IH]; [done|].
  intros Hu. apply IH. clear IH. unfold adjacent, has_edge in Hadj.
  change (graph city) with (built.2).(graph) in Hadj. simpl in Hadj.
  unfold same_edge in Hadj.
  apply list_elem_of_In in Hu. apply list_elem_of_In.
  repeat apply orb_prop in Hadj as [Hadj|Hadj]; try done;
    apply bool_decide_eq_true in Hadj as [[Ha Hb]|[Ha Hb]]; subst;
    simpl in *; intuition congruence.
Qed.

Lemma no_path_out_of_the_corner : ~ has_path (graph city) (0, 0) (5, 5).
Proof.
  intros Hp. apply corner_is_closed in Hp.
  - apply list_elem_of_In in Hp. simpl in Hp. intuition congruence.
  - apply list_elem_of_In. simpl. tauto.
Qed.

Lemma no_path_fails_after_fallback_witness :
  _find_optimal_route router (0, 0) (5, 5) None city =
    (Raise NetworkXNoPath,
     {| graph := graph city; ROUTING_PARAMS := ROUTING_PARAMS city;
        log := log city ++ [(INFO, FindingOptimalRoute (0, 0) (5, 5));
                            (WARNING, FallingBackToLength);
                            (ERROR, OptimalRouteError NetworkXNoPath)] |}).
Proof.
  apply (no_path_fails_after_fallback router (0, 0) (5, 5) None city).
  - exact RefSearch.ref_raises_no_path.
  - apply list_elem_of_In. simpl. tauto.
  - apply list_elem_of_In. simpl. tauto.
  - exact no_path_out_of_the_corner.
Defined.

Lemma far_away_is_far : far_from_nodes (graph city) far_away.
Proof.
  intros lon lat [= <-] [= <-] n Hn.
  change (graph city) with (built.2).(graph) in Hn. simpl in Hn.
  repeat (apply elem_of_cons in Hn as [->|Hn]; [reflexivity|]).
  by apply elem_of_nil in Hn.
Qed.

Lemma far_query_fails_before_search_witness :
  (_find_nearest_node router far_away city).1 = Ok None /\
  exists w',
    find_shadiest_route router far_away far_away (Some "2024-06-21") (Some "10:30")
      None city = (Raise (ValueError NoStartOrEnd), w')
    /\ graph w' = graph city.
Proof.
  destruct (far_query_fails_before_search router far_away far_away
              (Some "2024-06-21") (Some "10:30") None city
              (Date 2024 6 21) (Time 10 30 0 0) june_morning_sun)
    as (Hnear & _ & (w' & extra & Hrun & Hgraph & _) & _).
  - reflexivity.
  - reflexivity.
  - reflexivity.
  - exact far_away_is_far.
  - exact far_away_is_far.
  - split; [exact Hnear|]. exists w'. by split.
Defined.

(** C6 as stated fails on a query whose date does not parse: both points
    are far from every node, and the query raises the [ValueError] of
    [strptime], before any lookup of a node. *)
Lemma malformed_date_precedes_lookup :
  far_from_nodes (graph city) far_away /\
  (find_shadiest_route router far_away far_away (Some "yesterday") (Some "10:30")
     None city).1 = Raise (ValueError TimeDataMismatch) /\
  (find_shadiest_route router far_away far_away (Some "yesterday") (Some "10:30")
     None city).1 <> Raise (ValueError NoStartOrEnd).
Proof.
  split; [exact far_away_is_far|].
  assert ((find_shadiest_route router far_away far_away (Some "yesterday") (Some "10:30")
             None city).1 = Raise (ValueError TimeDataMismatch)) as E by reflexivity.
  split; [exact E|]. rewrite E. discriminate.
Qed.

(** So does it on a query at half past seven in the evening: the date and
    the time parse, and the sun position raises the [ValueError] of
    [replace] before any lookup of a node. *)
Example evening_query_precedes_lookup :
  far_from_nodes (graph city) far_away /\
  (find_shadiest_route router far_away far_away (Some "2024-06-21") (Some "19:30")
     None city).1 = Raise (ValueError HourOutOfRange).
Proof. split; [exact far_away_is_far|reflexivity]. Qed.

End RouterWitnesses.

(** ** The graph and its construction *)

Section GraphFacts.
Context `{Shapely}.














End GraphFacts.

Section Construction.
Context `{Libm} `{Numpy} `{Clock} `{Shapely} `{!Networkx}.






End Construction.

Section ConstructionWitness.
Import Ref Example.


End ConstructionWitness.

(** ** The sort and the alternatives *)

Section SortFacts.
Context {A : Type} (key : A -> float).
Import PyFloat PyFloatFacts.











End SortFacts.

(** ** The shade pass and the routes *)

Section ShadePass.
Context `{Libm} `{Numpy} `{Clock} `{Shapely} `{!Networkx}.
Import PyFloat PyFloatFacts.













End ShadePass.

Section Routes.
Context `{Libm} `{Numpy} `{Clock} `{Shapely} `{!Networkx}.
Import PyFloat PyFloatFacts.









End Routes.

Section Alternatives.
Context `{Libm} `{Numpy} `{Clock} `{Shapely} `{!Networkx}.
Import PyFloat PyFloatFacts.




End Alternatives.

Section AlternativesWitness.
Import Ref Example.


(** When both points of a query are next to the same node, every route is
    that node alone: its score is the mean of no value, NaN, and the routes
    come back in the order of their generation. *)
Example same_node_routes_have_no_score :
  (fun r => (PrimFloat.is_nan (average_shade_score r), length (edges (route_info r)),
             weight_combination r)) <$> same_node_routes =
  [(true, 0%nat, None); (true, 0%nat, Some (0.8, 0.2)%float);
   (true, 0%nat, Some (0.2, 0.8)%float)].
Proof. reflexivity. Qed.

End AlternativesWitness.
